(** * Resolution Suggest & Downscale: a shallow embedding and its properties

    The node [TuonoResolutionSuggestDownscale] of
    [tuono_resolution_suggest_downscale.py] is embedded function by function.
    Python integers are [Z], Python floats are IEEE-754 binary64 values
    ([spec_float] with precision 53 and maximal exponent 1024), Python
    strings are [string]s holding the UTF-8 encoding of the text, and a
    raised exception is the [Raise] case of a small error monad. *)

From Stdlib Require Import ZArith List Bool Lia.
From Stdlib Require Import Ascii String.
From Stdlib Require Import DecimalString.
From Stdlib Require DecimalPos.
From Stdlib Require Import SpecFloat.
Import ListNotations.

Local Open Scope list_scope.
Local Open Scope string_scope.
Local Open Scope Z_scope.

(** ** The fragment of Python the node relies on *)

Module Py.

(** The exceptions the built-in operations used by the node can raise. *)
Inductive exn : Type :=
| ZeroDivisionError
| OverflowError
| ValueError.

(** A computation either returns a value or raises. *)
Inductive result (A : Type) : Type :=
| Return (a : A)
| Raise (e : exn).
Arguments Return {A} a.
Arguments Raise {A} e.

Definition bind {A B : Type} (c : result A) (k : A -> result B) : result B :=
  match c with
  | Return a => k a
  | Raise e => Raise e
  end.

(** [try: c  except Exception: h], as a value. *)
Definition try_except {A : Type} (c : result A) (h : A) : A :=
  match c with
  | Return a => a
  | Raise _ => h
  end.

End Py.

Notation "'let*' x ':=' c 'in' k" := (Py.bind c (fun x => k))
  (at level 10, x binder, c at level 100, k at level 200).

(** *** Integers *)

Module PyInt.
Import Py.

(** [a // b] on integers: floor division, [ZeroDivisionError] on [b = 0].
    [Z.div] rounds towards minus infinity whatever the signs, as Python
    does. *)
Definition floordiv (a b : Z) : result Z :=
  if b =? 0 then Raise ZeroDivisionError else Return (a / b).

(** [str(n)], also what an f-string field [{n}] prints for an integer; as
    Python has it for integers of at most 4300 digits, the only ones the node
    prints. *)
Definition str (n : Z) : string := NilZero.string_of_int (Z.to_int n).

End PyInt.

(** *** Floats: IEEE-754 binary64, round to nearest, ties to even *)

Module PyFloat.
Import Py.

Definition prec : Z := 53.
Definition emax : Z := 1024.

Definition float : Type := spec_float.

(** Conversion of an integer to a float ([float(n)], and the coercion of the
    integer operand of a mixed operation): correctly rounded, and
    [OverflowError] when the integer is too large for a finite float. *)
Definition of_int (n : Z) : result float :=
  match binary_normalize prec emax n 0 false with
  | S754_infinity _ => Raise OverflowError
  | f => Return f
  end.

Definition mul (x y : float) : float := SFmul prec emax x y.
Definition sub (x y : float) : float := SFsub prec emax x y.
Definition ltb (x y : float) : bool := SFltb x y.
Definition leb (x y : float) : bool := SFleb x y.

(** The values a Python float can hold: mantissa and exponent in the
    canonical form of binary64. *)
Definition representable (x : float) : bool := valid_binary prec emax x.

(** [x / y] on floats raises on a zero divisor. *)
Definition truediv (x y : float) : result float :=
  match y with
  | S754_zero _ => Raise ZeroDivisionError
  | _ => Return (SFdiv prec emax x y)
  end.

(** [n * y] with [n] an integer and [y] a float. *)
Definition int_mul (n : Z) (y : float) : result float :=
  let* x := of_int n in
  Return (mul x y).

(** [n / y] with [n] an integer and [y] a float. *)
Definition int_truediv (n : Z) (y : float) : result float :=
  let* x := of_int n in
  truediv x y.

(** The integer nearest to [num / den], ties to the even one
    ([0 <= num], [0 < den]). *)
Definition nearest_even (num den : Z) : Z :=
  let q := num / den in
  let r := num mod den in
  match 2 * r ?= den with
  | Lt => q
  | Gt => q + 1
  | Eq => if Z.even q then q else q + 1
  end.

(** The integer nearest to [m * 2^e * 10^k], ties to even. *)
Definition scaled_magnitude (k : Z) (m : positive) (e : Z) : Z :=
  match e with
  | Zneg p => nearest_even (Zpos m * 10 ^ k) (2 ^ Zpos p)
  | _ => Zpos m * 2 ^ e * 10 ^ k
  end.

(** [round(x)] with one argument: the nearest integer, ties to even;
    [ValueError] on a NaN and [OverflowError] on an infinity. *)
Definition round (x : float) : result Z :=
  match x with
  | S754_nan => Raise ValueError
  | S754_infinity _ => Raise OverflowError
  | S754_zero _ => Return 0
  | S754_finite s m e => Return (cond_Zopp s (scaled_magnitude 0 m e))
  end.

(** The digits of [n >= 0] read as a number with [k] decimals. *)
Definition fixed_point (k : nat) (n : Z) : string :=
  let unit := 10 ^ Z.of_nat k in
  let frac := PyInt.str (n mod unit) in
  let zeros := String.concat "" (repeat "0" (k - String.length frac)) in
  match k with
  | O => PyInt.str n
  | _ => PyInt.str (n / unit) ++ "." ++ zeros ++ frac
  end.

(** The format [{x:.kf}]: [k] decimals, the exact value rounded to nearest
    with ties to even. *)
Definition format_f (k : nat) (x : float) : string :=
  match x with
  | S754_nan => "nan"
  | S754_infinity s => if s then "-inf" else "inf"
  | S754_zero s => (if s then "-" else "") ++ fixed_point k 0
  | S754_finite s m e =>
      (if s then "-" else "") ++ fixed_point k (scaled_magnitude (Z.of_nat k) m e)
  end.

(** The float literals of the source. *)
Definition f0_0 : float := S754_zero false.
Definition f1_0 : float := S754_finite false 4503599627370496 (-52).
Definition f10_0 : float := S754_finite false 5629499534213120 (-49).
Definition f20_0 : float := S754_finite false 5629499534213120 (-48).
Definition f30_0 : float := S754_finite false 8444249301319680 (-48).
Definition f40_0 : float := S754_finite false 5629499534213120 (-47).
Definition f50_0 : float := S754_finite false 7036874417766400 (-47).
Definition f60_0 : float := S754_finite false 8444249301319680 (-47).
Definition f100_0 : float := S754_finite false 7036874417766400 (-46).
Definition f0_1 : float := S754_finite false 7205759403792794 (-56).
Definition f0_5 : float := S754_finite false 4503599627370496 (-53).
Definition f0_6 : float := S754_finite false 5404319552844595 (-53).
Definition f0_7 : float := S754_finite false 6305039478318694 (-53).
Definition f0_8 : float := S754_finite false 7205759403792794 (-53).

(** The float nearest to the fraction [num / den] of two small integers:
    what the parser makes of a decimal literal. *)
Definition nearest (num den : Z) : float :=
  SFdiv prec emax (binary_normalize prec emax num 0 false)
                  (binary_normalize prec emax den 0 false).

End PyFloat.

(** *** Strings

    A Python string is held as the bytes of its UTF-8 encoding. Prefix and
    substring tests against the ASCII patterns of the source agree with the
    tests on code points, since no byte of a multi-byte UTF-8 sequence is an
    ASCII byte. [lower] maps the ASCII capitals and leaves every other byte
    as it is, [strip] removes the ASCII white space, and [int] reads ASCII
    digits; the node applies [strip] and [int] to the texts of its own table
    only, which are ASCII, and the properties below that name a selector
    name an ASCII one. *)

Module PyStr.
Import Py.

(** [s.startswith(p)] *)
Definition startswith (s p : string) : bool := String.prefix p s.

(** [needle in s] *)
Fixpoint contains (needle s : string) : bool :=
  if String.prefix needle s then true
  else match s with
       | EmptyString => false
       | String _ rest => contains needle rest
       end.

Definition lower_ascii (c : ascii) : ascii :=
  let n := nat_of_ascii c in
  if (Nat.leb 65 n && Nat.leb n 90)%bool then ascii_of_nat (n + 32) else c.

(** [s.lower()] *)
Fixpoint lower (s : string) : string :=
  match s with
  | EmptyString => EmptyString
  | String c rest => String (lower_ascii c) (lower rest)
  end.

(** White space as [str.isspace] has it on ASCII: tab, line feed, vertical
    tab, form feed, carriage return, the four separators 28 to 31, space. *)
Definition isspace (c : ascii) : bool :=
  let n := nat_of_ascii c in
  ((Nat.leb 9 n && Nat.leb n 13) || (Nat.leb 28 n && Nat.leb n 32))%bool.

Fixpoint lstrip (s : string) : string :=
  match s with
  | EmptyString => EmptyString
  | String c rest => if isspace c then lstrip rest else s
  end.

Fixpoint rstrip (s : string) : string :=
  match s with
  | EmptyString => EmptyString
  | String c rest =>
      match rstrip rest with
      | EmptyString => if isspace c then EmptyString else String c EmptyString
      | rest' => String c rest'
      end
  end.

(** [s.strip()] *)
Definition strip (s : string) : string := rstrip (lstrip s).

(** [s.split(c)] for a separator of one character: never empty. *)
Fixpoint split_char (c : ascii) (s : string) : list string :=
  match s with
  | EmptyString => [EmptyString]
  | String a rest =>
      if Ascii.eqb a c then EmptyString :: split_char c rest
      else match split_char c rest with
           | first :: others => String a first :: others
           | [] => [String a EmptyString]
           end
  end.

Fixpoint drop (n : nat) (s : string) : string :=
  match n, s with
  | O, _ => s
  | S n', String _ rest => drop n' rest
  | S _, EmptyString => EmptyString
  end.

(** The text before and after the first occurrence of [sep], if any:
    [s.split(sep, 1)] is [[before; after]] then, and [[s]] otherwise. *)
Fixpoint split_once (sep s : string) : option (string * string) :=
  if String.prefix sep s then Some (EmptyString, drop (String.length sep) s)
  else match s with
       | EmptyString => None
       | String a rest =>
           match split_once sep rest with
           | Some (before, after) => Some (String a before, after)
           | None => None
           end
       end.

(** [s.split(sep)[0]] *)
Definition split_first (sep s : string) : string :=
  match split_once sep s with
  | Some (before, _) => before
  | None => s
  end.

Definition digit_value (c : ascii) : option Z :=
  let n := nat_of_ascii c in
  if (Nat.leb 48 n && Nat.leb n 57)%bool then Some (Z.of_nat (n - 48)) else None.

(** Decimal digits, single underscores allowed between two digits. *)
Fixpoint digits (acc : Z) (after_digit : bool) (s : string) : option Z :=
  match s with
  | EmptyString => if after_digit then Some acc else None
  | String c rest =>
      match digit_value c with
      | Some d => digits (10 * acc + d) true rest
      | None =>
          if (Ascii.eqb c "_" && after_digit)%bool then digits acc false rest
          else None
      end
  end.

(** [int(s)] in base ten: surrounding white space, an optional sign, digits;
    [ValueError] otherwise. As Python has it for ASCII texts of at most 4300
    digits. *)
Definition int (s : string) : result Z :=
  let body := strip s in
  let '(negative, body) :=
    match body with
    | String "-" rest => (true, rest)
    | String "+" rest => (false, rest)
    | _ => (false, body)
    end in
  match digits 0 false body with
  | Some n => Return (if negative then - n else n)
  | None => Raise ValueError
  end.

End PyStr.

(** *** Dictionaries written as literals

    A literal [{k1: v1, k2: v2, ...}] is held as the list of its items in
    source order; when a key is written twice the later item gives the
    value. *)

Module PyDict.

Definition key_eqb (a b : Z * Z) : bool :=
  ((fst a =? fst b) && (snd a =? snd b))%bool.

(** [Some table[key]] when [key in table], [None] otherwise. *)
Definition get {V : Type} (items : list ((Z * Z) * V)) (key : Z * Z) : option V :=
  fold_left (fun found item => if key_eqb (fst item) key then Some (snd item) else found)
            items None.

End PyDict.

(** ** The node *)

Module TuonoResolutionSuggestDownscale.
Import Py.

(** An [IMAGE] is a tensor laid out as batch, height, width, channels; the
    node reads [image.shape[1]] and [image.shape[2]] and hands the tensor on
    untouched. *)
Record Image : Type := {
  shape0 : Z;
  shape1 : Z;
  shape2 : Z;
  shape3 : Z
}.

(** The entries of the [model_profile] and [scale_preset] menus declared by
    [INPUT_TYPES]. *)
Definition model_profiles : list string :=
  [ "multiple_of: 8 (SD / General (8))";
    "multiple_of: 16 (WAN 2.2 / Strict (16))";
    "multiple_of: 32 (Video / Advanced (32))";
    "multiple_of: 64 (Legacy / Extra Safe (64))" ].

Definition scale_presets : list string :=
  [ "0% smaller (keep original) (1920x1080→1920x1080, 1280x720→1280x720)";
    "10% smaller (1920x1080→1728x972, 1280x720→1152x648)";
    "20% smaller (1920x1080→1536x864, 1280x720→1024x576)";
    "30% smaller (1920x1080→1344x756, 1280x720→896x504)";
    "40% smaller (1920x1080→1152x648, 1280x720→768x432)";
    "50% smaller (1920x1080→960x540, 1280x720→640x360)";
    "60% smaller (1920x1080→768x432, 1280x720→512x288)";
    "Resolution suggestion 1 (highest from table)";
    "Resolution suggestion 2 (lower from table)";
    "Resolution suggestion 3 (lowest from table)";
    "Resolution suggestion 4 (very low VRAM)" ].

(** *** Helpers: core *)

(** [_snap_dim(self, value, multiple)]; every call site passes integers,
    so [int(value)] is the identity. *)
Definition _snap_dim (value multiple : Z) : result Z :=
  if value <=? 0 then Return multiple
  else
    let v := value in
    let* q := PyInt.floordiv v multiple in
    let snapped := q * multiple in
    let snapped := if snapped <? multiple then multiple else snapped in
    Return snapped.

Definition _profile_to_multiple (model_profile : string) : Z * string :=
  if PyStr.startswith model_profile "multiple_of: 8" then (8, "SD / General (8)")
  else if PyStr.startswith model_profile "multiple_of: 16" then (16, "WAN 2.2 / Strict (16)")
  else if PyStr.startswith model_profile "multiple_of: 32" then (32, "Video / Advanced (32)")
  else if PyStr.startswith model_profile "multiple_of: 64" then (64, "Legacy / Extra Safe (64)")
  else (8, "SD / General (8)").

(** *** Helpers: percentage presets *)

Definition _scale_from_percentage_preset (scale_preset : string)
  : result (PyFloat.float * PyFloat.float) :=
  let reduction :=
    if PyStr.startswith scale_preset "0%" then PyFloat.f0_0
    else if PyStr.startswith scale_preset "10%" then PyFloat.f10_0
    else if PyStr.startswith scale_preset "20%" then PyFloat.f20_0
    else if PyStr.startswith scale_preset "30%" then PyFloat.f30_0
    else if PyStr.startswith scale_preset "40%" then PyFloat.f40_0
    else if PyStr.startswith scale_preset "50%" then PyFloat.f50_0
    else if PyStr.startswith scale_preset "60%" then PyFloat.f60_0
    else PyFloat.f0_0 in
  let* fraction := PyFloat.truediv reduction PyFloat.f100_0 in
  let scale := PyFloat.sub PyFloat.f1_0 fraction in
  let scale := if PyFloat.ltb scale PyFloat.f0_1 then PyFloat.f0_1 else scale in
  Return (reduction, scale).

Definition _scale_and_snap (w h : Z) (scale : PyFloat.float) (multiple_of : Z)
  : result (Z * Z * Z * Z) :=
  let* raw_w := PyFloat.int_mul w scale in
  let* raw_h := PyFloat.int_mul h scale in
  let* rounded_w := PyFloat.round raw_w in
  let* snapped_w := _snap_dim rounded_w multiple_of in
  let* rounded_h := PyFloat.round raw_h in
  let* snapped_h := _snap_dim rounded_h multiple_of in
  let* snapped_w := if snapped_w >? w then _snap_dim w multiple_of else Return snapped_w in
  let* snapped_h := if snapped_h >? h then _snap_dim h multiple_of else Return snapped_h in
  let* out_raw_w := PyFloat.round raw_w in
  let* out_raw_h := PyFloat.round raw_h in
  Return (snapped_w, snapped_h, out_raw_w, out_raw_h).

(** *** Helpers: common resolutions table *)

(** The items of the dictionary literal, in the order of the source. *)
Definition _get_common_resolution_table : list ((Z * Z) * string) :=
  [
    (* 4K and high resolutions *)
    ((3840, 2160), "2560x1440, 1920x1080, 1280x720, 960x540, 854x480");
    ((3440, 1440), "2560x1080, 2560x1440, 1920x810, 1600x720, 1280x540");
    ((2560, 1440), "1920x1080, 1600x900, 1280x720, 1024x576, 960x540");
    ((2560, 1080), "1920x810, 1920x800, 1600x900, 1280x720, 1024x576");
    ((2048, 1152), "1920x1080, 1600x900, 1280x720, 1024x576, 960x540");
    (* SDXL / Civitai-style portrait & landscape *)
    ((1024, 1024), "896x896, 768x768, 640x640");
    ((1152, 896), "1024x800, 960x768, 896x736");
    ((896, 1152), "768x992, 672x864, 576x736");
    ((1216, 832), "1152x768, 1024x704, 896x640");
    ((832, 1216), "768x1120, 704x1024, 640x928");
    ((1344, 768), "1216x704, 1152x672, 1024x576");
    ((768, 1344), "704x1216, 672x1152, 576x1024");
    ((1536, 640), "1344x576, 1216x512, 1024x448");
    ((640, 1536), "576x1344, 512x1216, 448x1024");
    ((640, 960), "576x864, 512x768, 480x720");
    ((768, 1152), "704x1056, 640x960, 576x864");
    ((800, 1200), "704x1056, 640x960, 576x864");
    ((832, 1216), "768x1120, 704x1024, 640x928");
    (* Classic 16:9 landscape *)
    ((1920, 1080), "1600x900, 1536x864, 1280x720, 1024x576, 960x540");
    ((1720, 720), "1600x720, 1280x720, 1024x576, 960x540, 854x480");
    ((1680, 1050), "1600x900, 1440x900, 1280x800, 1280x720, 1024x640");
    ((1600, 900), "1440x810, 1280x720, 1024x576");
    ((1536, 864), "1440x810, 1280x720, 1024x576");
    ((1366, 768), "1280x720, 1152x648, 1024x576");
    ((1360, 768), "1280x720, 1152x648, 1024x576");
    ((1280, 720), "1152x648, 1024x576, 960x540");
    ((1270, 720), "1152x648, 1024x576, 960x540");
    ((1024, 576), "960x540, 854x480, 768x432");
    ((960, 540), "854x480, 848x480, 800x450");
    ((854, 480), "800x450, 768x432, 640x360");
    ((848, 480), "800x450, 768x432, 640x360");
    ((800, 450), "768x432, 720x405, 640x360");
    ((720, 405), "640x360, 576x324, 512x288");
    ((640, 360), "576x324, 512x288, 426x240");
    ((426, 240), "400x225, 384x216, 320x180");
    (* Square / near-square *)
    ((2048, 2048), "1536x1536, 1024x1024, 768x768");
    ((1536, 1536), "1280x1280, 1024x1024, 768x768");
    ((1280, 1280), "1024x1024, 896x896, 768x768");
    ((1024, 1024), "896x896, 768x768, 640x640");
    ((896, 896), "768x768, 704x704, 640x640");
    ((768, 768), "640x640, 576x576, 512x512");
    ((640, 640), "576x576, 512x512, 480x480");
    ((512, 512), "448x448, 384x384, 320x320");
    (* Portrait *)
    ((1080, 1920), "900x1600, 720x1280, 540x960");
    ((720, 1280), "640x1138, 540x960, 480x853");
    ((640, 1136), "576x1024, 540x960, 480x853");
    (* 1152x896 variant *)
    ((1152, 896), "1024x800, 960x768, 896x672")
  ].

Definition _parse_res_list (text : string) : list (Z * Z) :=
  let parts := PyStr.split_char "," text in
  fold_left
    (fun results p =>
       let p := PyStr.strip p in
       if negb (PyStr.contains "x" p) then results
       else
         match PyStr.split_once "x" p with
         | Some (w_str, h_str) =>
             try_except
               (let* w := PyStr.int (PyStr.strip w_str) in
                let* h := PyStr.int (PyStr.strip h_str) in
                Return (results ++ [(w, h)])%list)
               results
         | None => results
         end)
    parts [].

Definition _static_resolution_suggestions (current_w current_h multiple_of : Z)
  : result string :=
  let table := _get_common_resolution_table in
  let key := (current_w, current_h) in
  let base :=
    match PyDict.get table key with
    | Some text => "suggested/common resolutions: " ++ text
    | None => "suggested/common resolutions: (no static entries for this input size)"
    end in
  let* '(low_w, low_h, _, _) := _scale_and_snap current_w current_h PyFloat.f0_5 multiple_of in
  let low := "less common lower resolution (same aspect ratio): "
             ++ PyInt.str low_w ++ "x" ++ PyInt.str low_h in
  Return (base ++ " | " ++ low).

(** *** Helpers: resolution suggestion presets *)

(** Lines 244 to 248: the parsed entries of the exact key, none on a miss. *)
Definition table_suggestions (w h : Z) : list (Z * Z) :=
  let table := _get_common_resolution_table in
  let key := (w, h) in
  match PyDict.get table key with
  | Some text => _parse_res_list text
  | None => []
  end.

Definition _get_suggestion_target (w h multiple_of : Z) (scale_preset : string)
  : result (Z * Z * Z * Z) :=
  let preset_lower := PyStr.lower scale_preset in
  if (PyStr.contains "suggestion 4" preset_lower
      || PyStr.contains "very low vram" preset_lower)%bool
  then
    let* '(new_w, new_h, raw_w, raw_h) := _scale_and_snap w h PyFloat.f0_5 multiple_of in
    Return (new_w, new_h, raw_w, raw_h)
  else
    let suggestions := table_suggestions w h in
    let idx : option nat :=
      if PyStr.contains "suggestion 1" preset_lower then Some 0%nat
      else if PyStr.contains "suggestion 2" preset_lower then Some 1%nat
      else if PyStr.contains "suggestion 3" preset_lower then Some 2%nat
      else None in
    match suggestions, idx with
    | first :: others, Some idx =>
        let '(target_w, target_h) :=
          if (idx <? List.length suggestions)%nat then nth idx suggestions first
          else last suggestions first in
        let* snapped_w := _snap_dim target_w multiple_of in
        let* snapped_h := _snap_dim target_h multiple_of in
        let* snapped_w := if snapped_w >? w then _snap_dim w multiple_of else Return snapped_w in
        let* snapped_h := if snapped_h >? h then _snap_dim h multiple_of else Return snapped_h in
        let raw_w := target_w in
        let raw_h := target_h in
        Return (snapped_w, snapped_h, raw_w, raw_h)
    | _, _ =>
        let scale :=
          if PyStr.contains "suggestion 1" preset_lower then PyFloat.f0_8
          else if PyStr.contains "suggestion 2" preset_lower then PyFloat.f0_7
          else if PyStr.contains "suggestion 3" preset_lower then PyFloat.f0_6
          else PyFloat.f0_5 in
        let* '(new_w, new_h, raw_w, raw_h) := _scale_and_snap w h scale multiple_of in
        Return (new_w, new_h, raw_w, raw_h)
    end.

(** *** main *)

Definition calc (image : Image) (model_profile scale_preset : string)
  : result (Image * Z * Z * string) :=
  let h := shape1 image in
  let w := shape2 image in
  if ((h <=? 0) || (w <=? 0))%bool then
    let info := "Invalid image size – cannot calculate." in
    Return (image, w, h, info)
  else
    let '(multiple_of, profile_label) := _profile_to_multiple model_profile in
    let is_suggestion := PyStr.startswith scale_preset "Resolution suggestion" in
    let* '(reduction_percent, scale, (new_w, new_h, raw_w, raw_h)) :=
      if is_suggestion then
        let* target := _get_suggestion_target w h multiple_of scale_preset in
        let '(new_w, _, _, _) := target in
        let* scale :=
          if w >? 0 then
            let* float_w := PyFloat.of_int w in
            PyFloat.int_truediv new_w float_w
          else Return PyFloat.f1_0 in
        let reduction_percent := PyFloat.mul (PyFloat.sub PyFloat.f1_0 scale) PyFloat.f100_0 in
        Return (reduction_percent, scale, target)
      else
        let* '(reduction_percent, scale) := _scale_from_percentage_preset scale_preset in
        let* target := _scale_and_snap w h scale multiple_of in
        Return (reduction_percent, scale, target) in
    let simple_preset := PyStr.split_first " (" scale_preset in
    let* suggestions_info := _static_resolution_suggestions w h multiple_of in
    let lines :=
      [ "multiple_of: " ++ PyInt.str multiple_of ++ " (" ++ profile_label ++ ")";
        "scale_preset=" ++ simple_preset
          ++ ", reduction≈" ++ PyFloat.format_f 1 reduction_percent
          ++ "% (scale≈" ++ PyFloat.format_f 4 scale ++ ")";
        "input image: " ++ PyInt.str w ++ "x" ++ PyInt.str h;
        "result: raw " ++ PyInt.str raw_w ++ "x" ++ PyInt.str raw_h
          ++ " -> snapped " ++ PyInt.str new_w ++ "x" ++ PyInt.str new_h;
        suggestions_info ] in
    let info := String.concat " | " lines in
    Return (image, new_w, new_h, info).

End TuonoResolutionSuggestDownscale.

Import Py TuonoResolutionSuggestDownscale.

(** ** Vocabulary of the statements *)

(** The granularities of the four profiles. *)
Definition granularities : list Z := [8; 16; 32; 64].

(** A scale of the interval (0, 1]. *)
Definition unit_scale (scale : PyFloat.float) : Prop :=
  PyFloat.representable scale = true /\
  PyFloat.ltb PyFloat.f0_0 scale = true /\
  PyFloat.leb scale PyFloat.f1_0 = true.

(** The range of a tensor dimension: a signed integer of 64 bits. *)
Definition dimension (n : Z) : Prop := 0 < n < 2 ^ 63.

(** [(w, h)] is a key of the static table. *)
Definition table_key (w h : Z) : Prop :=
  In (w, h) (map fst _get_common_resolution_table).

(** An image of the given width and height. *)
Definition image_of_size (w h : Z) : Image :=
  {| shape0 := 1; shape1 := h; shape2 := w; shape3 := 3 |}.

(** The text [WxH] of a pair, as the info string and the table write it. *)
Definition resolution_text (p : Z * Z) : string :=
  PyInt.str (fst p) ++ "x" ++ PyInt.str (snd p).

(** The integers Python prints and reads at its default limit of 4300
    decimal digits; beyond it [str] and [int] raise [ValueError]. *)
Definition printable (n : Z) : Prop := Z.abs n < 10 ^ 4300.

(** Every character of [s] passes the test [P]. *)
Fixpoint every (P : ascii -> bool) (s : string) : bool :=
  match s with
  | EmptyString => true
  | String c rest => (P c && every P rest)%bool
  end.

(** The characters of a printed integer: a digit or the minus sign. *)
Definition numeral_char (c : ascii) : bool :=
  match PyStr.digit_value c with
  | Some _ => true
  | None => Ascii.eqb c "-"
  end.

(** Finite, of magnitude below [2^k]. *)
Definition finite_below (k : Z) (x : PyFloat.float) : Prop :=
  match x with
  | S754_zero _ => True
  | S754_finite _ m e => Zpos (digits2_pos m) + e <= k
  | _ => False
  end.

(** ** Facts about the float layer

    A finite float is written [m * 2^e]; [Zdigits2 m + e] bounds its
    magnitude by a power of two, and the rounding of [binary_round_aux]
    raises that bound by one at most. This is what keeps the products of the
    node away from the infinities. *)

Module FloatFacts.
Import PyFloat.

Lemma digits2_pos_size (p : positive) : digits2_pos p = Pos.size p.
Proof. induction p; simpl; congruence. Qed.

Lemma Zdigits2_log2 (m : Z) : 0 < m -> Zdigits2 m = Z.log2 m + 1.
Proof.
  destruct m as [|p|p]; try lia. intros _.
  destruct p; simpl; rewrite ?digits2_pos_size; lia.
Qed.

Lemma Zdigits2_nonneg (m : Z) : 0 <= Zdigits2 m.
Proof. destruct m; simpl; lia. Qed.

Lemma Zdigits2_succ (m : Z) : 0 <= m -> Zdigits2 (m + 1) <= Zdigits2 m + 1.
Proof.
  intros Hm. destruct (Z.eq_dec m 0) as [->|Hz]; [simpl; lia|].
  rewrite !Zdigits2_log2 by lia.
  assert (Z.log2 (m + 1) <= Z.log2 (2 * m)) by (apply Z.log2_le_mono; lia).
  rewrite Z.log2_double in H by lia. lia.
Qed.

Lemma Zdigits2_mono (a b : Z) : 0 <= a <= b -> Zdigits2 a <= Zdigits2 b.
Proof.
  intros H. destruct (Z.eq_dec a 0) as [->|Ha]; [apply Zdigits2_nonneg|].
  rewrite !Zdigits2_log2 by lia.
  assert (Z.log2 a <= Z.log2 b) by (apply Z.log2_le_mono; lia). lia.
Qed.

Lemma Zdigits2_mul (a b : positive) :
  Zpos (digits2_pos (a * b)) <= Zpos (digits2_pos a) + Zpos (digits2_pos b).
Proof.
  change (Zdigits2 (Zpos (a * b)) <= Zdigits2 (Zpos a) + Zdigits2 (Zpos b)).
  rewrite !Zdigits2_log2 by lia.
  rewrite Pos2Z.inj_mul.
  pose proof (Z.log2_mul_above (Zpos a) (Zpos b)). lia.
Qed.

Lemma shr_1_digits (mrs : shr_record) :
  0 <= shr_m mrs ->
  0 <= shr_m (shr_1 mrs) /\
  Zdigits2 (shr_m (shr_1 mrs)) = Z.max 0 (Zdigits2 (shr_m mrs) - 1).
Proof.
  destruct mrs as [m r s]; cbn [shr_m]. intros Hm.
  destruct m as [|p|p]; [cbn; lia| |lia].
  destruct p; cbn [shr_1 shr_m Zdigits2 digits2_pos];
    rewrite ?Pos2Z.inj_succ; lia.
Qed.

Lemma iter_shr_1_digits (n : positive) : forall mrs,
  0 <= shr_m mrs ->
  0 <= shr_m (iter_pos shr_1 n mrs) /\
  Zdigits2 (shr_m (iter_pos shr_1 n mrs)) = Z.max 0 (Zdigits2 (shr_m mrs) - Zpos n).
Proof.
  induction n as [n IH|n IH|]; intros mrs Hm; simpl iter_pos.
  - destruct (shr_1_digits mrs Hm) as [H1 E1].
    destruct (IH _ H1) as [H2 E2]. destruct (IH _ H2) as [H3 E3].
    split; [exact H3|]. rewrite E3, E2, E1. lia.
  - destruct (IH _ Hm) as [H2 E2]. destruct (IH _ H2) as [H3 E3].
    split; [exact H3|]. rewrite E3, E2. lia.
  - apply shr_1_digits, Hm.
Qed.

Lemma shr_digits (mrs : shr_record) (e n : Z) :
  0 <= shr_m mrs ->
  0 <= shr_m (fst (shr mrs e n)) /\
  snd (shr mrs e n) = e + Z.max 0 n /\
  Zdigits2 (shr_m (fst (shr mrs e n))) = Z.max 0 (Zdigits2 (shr_m mrs) - Z.max 0 n).
Proof.
  intros Hm. pose proof (Zdigits2_nonneg (shr_m mrs)).
  destruct n as [|n|n]; cbn [shr fst snd]; try (split; [|split]; lia).
  destruct (iter_shr_1_digits n mrs Hm) as [H1 H2].
  split; [exact H1|split; [lia|rewrite H2; lia]].
Qed.

Lemma shr_record_of_loc_m (m : Z) (l : location) : shr_m (shr_record_of_loc m l) = m.
Proof. destruct l as [|[]]; reflexivity. Qed.

Lemma shr_fexp_digits (m e : Z) (l : location) :
  0 <= m ->
  0 <= shr_m (fst (shr_fexp prec emax m e l)) /\
  snd (shr_fexp prec emax m e l) = Z.max e (fexp prec emax (Zdigits2 m + e)) /\
  Zdigits2 (shr_m (fst (shr_fexp prec emax m e l)))
  = Z.max 0 (Zdigits2 m - (snd (shr_fexp prec emax m e l) - e)).
Proof.
  intros Hm. unfold shr_fexp.
  set (mrs := shr_record_of_loc m l).
  assert (Hmrs : shr_m mrs = m) by apply shr_record_of_loc_m.
  assert (Hpos : 0 <= shr_m mrs) by lia.
  destruct (shr_digits mrs e (fexp prec emax (Zdigits2 m + e) - e) Hpos) as (H1 & H2 & H3).
  rewrite Hmrs in H3. split; [exact H1|split; [lia|rewrite H3, H2; lia]].
Qed.

Lemma round_nearest_even_digits (m : Z) (l : location) :
  0 <= m ->
  0 <= round_nearest_even m l /\
  Zdigits2 m <= Zdigits2 (round_nearest_even m l) <= Zdigits2 m + 1.
Proof.
  intros Hm. pose proof (Zdigits2_succ m Hm). pose proof (Zdigits2_mono m (m + 1)).
  destruct l as [|[]]; cbn [round_nearest_even];
    try destruct (Z.even m); split; lia.
Qed.

(** Rounding a positive [m * 2^e] below [2^k] gives a finite float below
    [2^(k+1)], as long as [k] is in the range of the normal exponents. *)
Lemma binary_round_aux_finite (s : bool) (m e : Z) (l : location) (k : Z) :
  0 < m -> Zdigits2 m + e <= k -> -1074 <= k -> k < 971 ->
  finite_below (k + 1) (binary_round_aux prec emax s m e l).
Proof.
  intros Hm Hd Hlo Hhi. unfold binary_round_aux.
  assert (Hm0 : 0 <= m) by lia.
  destruct (shr_fexp_digits m e l Hm0) as (P1 & Q1 & D1).
  destruct (shr_fexp prec emax m e l) as [mrs1 e1]; cbn [fst snd] in P1, Q1, D1.
  destruct (round_nearest_even_digits (shr_m mrs1) (loc_of_shr_record mrs1) P1)
    as [P2 D2].
  set (m2 := round_nearest_even (shr_m mrs1) (loc_of_shr_record mrs1)) in *.
  destruct (shr_fexp_digits m2 e1 loc_Exact P2) as (P3 & Q3 & D3).
  destruct (shr_fexp prec emax m2 e1 loc_Exact) as [mrs3 e3]; cbn [fst snd] in P3, Q3, D3.
  assert (Hm1 : 1 <= Zdigits2 m) by (rewrite Zdigits2_log2 by lia; pose proof (Z.log2_nonneg m); lia).
  unfold fexp, emin, prec, emax in *.
  destruct (shr_m mrs3) as [|q|q] eqn:Eq; cbn [finite_below]; [exact I| |lia].
  assert (He3 : e3 <= 1024 - 53) by lia.
  apply Z.leb_le in He3. rewrite He3. cbn [finite_below].
  change (Zdigits2 (Zpos q) + e3 <= k + 1). lia.
Qed.

(** In the range of the normal numbers the rounding does not reach zero. *)
Lemma binary_round_aux_nonzero (s : bool) (m e : Z) (l : location) (k : Z) :
  0 < m -> -1021 <= Zdigits2 m + e <= k -> k < 971 ->
  exists m' e', binary_round_aux prec emax s m e l = S754_finite s m' e'.
Proof.
  intros Hm Hd Hhi. unfold binary_round_aux.
  assert (Hm0 : 0 <= m) by lia.
  destruct (shr_fexp_digits m e l Hm0) as (P1 & Q1 & D1).
  destruct (shr_fexp prec emax m e l) as [mrs1 e1]; cbn [fst snd] in P1, Q1, D1.
  destruct (round_nearest_even_digits (shr_m mrs1) (loc_of_shr_record mrs1) P1)
    as [P2 D2].
  set (m2 := round_nearest_even (shr_m mrs1) (loc_of_shr_record mrs1)) in *.
  destruct (shr_fexp_digits m2 e1 loc_Exact P2) as (P3 & Q3 & D3).
  destruct (shr_fexp prec emax m2 e1 loc_Exact) as [mrs3 e3]; cbn [fst snd] in P3, Q3, D3.
  assert (Hm1 : 1 <= Zdigits2 m) by (rewrite Zdigits2_log2 by lia; pose proof (Z.log2_nonneg m); lia).
  unfold fexp, emin, prec, emax in *.
  destruct (shr_m mrs3) as [|q|q] eqn:Eq; [cbn [Zdigits2] in D3; lia| |lia].
  assert (He3 : e3 <= 1024 - 53) by lia.
  apply Z.leb_le in He3. rewrite He3. eexists; eexists; reflexivity.
Qed.

Lemma iter_xO_digits (m d : positive) :
  Zpos (digits2_pos (Pos.iter xO m d)) = Zpos (digits2_pos m) + Zpos d.
Proof.
  induction d as [|d IH] using Pos.peano_ind.
  - cbn [Pos.iter digits2_pos]. lia.
  - rewrite Pos.iter_succ. cbn [digits2_pos]. lia.
Qed.

Lemma shl_align_digits (m : positive) (e e' : Z) :
  Zpos (digits2_pos (fst (shl_align m e e'))) + snd (shl_align m e e')
  = Zpos (digits2_pos m) + e.
Proof.
  unfold shl_align. destruct (e' - e) as [|d|d] eqn:E; cbn [fst snd]; try reflexivity.
  rewrite iter_xO_digits. lia.
Qed.

Lemma binary_round_finite (s : bool) (m : positive) (e k : Z) :
  Zpos (digits2_pos m) + e <= k -> -1074 <= k -> k < 971 ->
  finite_below (k + 1) (binary_round prec emax s m e).
Proof.
  intros Hd Hlo Hhi. unfold binary_round.
  pose proof (shl_align_digits m e (fexp prec emax (Zpos (digits2_pos m) + e))) as H.
  destruct (shl_align m e (fexp prec emax (Zpos (digits2_pos m) + e))) as [mz ez].
  cbn [fst snd] in H.
  apply binary_round_aux_finite; cbn [Zdigits2]; lia.
Qed.

(** The conversion of a dimension to a float never overflows. *)
Lemma of_int_finite (n : Z) :
  0 <= n < 2 ^ 63 ->
  exists x, of_int n = Py.Return x /\ finite_below 64 x.
Proof.
  intros Hn. unfold of_int.
  destruct n as [|p|p]; [| |lia].
  - exists (S754_zero false). split; [reflexivity|exact I].
  - cbn [binary_normalize].
    assert (Hd : Zpos (digits2_pos p) + 0 <= 63).
    { change (Zdigits2 (Zpos p) + 0 <= 63). rewrite Zdigits2_log2 by lia.
      assert (Z.log2 (Zpos p) < 63) by (apply Z.log2_lt_pow2; lia). lia. }
    pose proof (binary_round_finite false p 0 63 Hd ltac:(lia) ltac:(lia)) as Hf.
    change (63 + 1) with 64 in Hf.
    destruct (binary_round prec emax false p 0) as [s|s| |s m e];
      cbn [finite_below] in Hf; try contradiction; eexists; split; try reflexivity; exact Hf.
Qed.

(** The float of a positive dimension is not zero. *)
Lemma of_int_nonzero (n : Z) :
  0 < n < 2 ^ 63 ->
  exists m e, of_int n = Py.Return (S754_finite false m e).
Proof.
  intros Hn. unfold of_int. destruct n as [|p|p]; try lia.
  cbn [binary_normalize]. unfold binary_round.
  assert (Hd : 1 <= Zpos (digits2_pos p) <= 63).
  { change (1 <= Zdigits2 (Zpos p) <= 63). rewrite Zdigits2_log2 by lia.
    assert (Z.log2 (Zpos p) < 63) by (apply Z.log2_lt_pow2; lia).
    pose proof (Z.log2_nonneg (Zpos p)). lia. }
  pose proof (shl_align_digits p 0 (fexp prec emax (Zpos (digits2_pos p) + 0))) as H.
  destruct (shl_align p 0 (fexp prec emax (Zpos (digits2_pos p) + 0))) as [mz ez].
  cbn [fst snd] in H.
  destruct (binary_round_aux_nonzero false (Zpos mz) ez loc_Exact 63) as (m' & e' & E);
    cbn [Zdigits2]; try lia.
  rewrite E. eexists; eexists; reflexivity.
Qed.

Lemma mul_finite (x y : float) (j k : Z) :
  finite_below j x -> finite_below k y -> -1074 <= j + k -> j + k < 971 ->
  finite_below (j + k + 1) (mul x y).
Proof.
  intros Hx Hy Hlo Hhi. unfold mul.
  destruct x as [sx|sx| |sx mx ex], y as [sy|sy| |sy my ey];
    cbn [finite_below SFmul] in *; try contradiction; try exact I.
  apply binary_round_aux_finite; try lia.
  cbn [Zdigits2]. pose proof (Zdigits2_mul mx my). lia.
Qed.

Lemma round_finite (x : float) (k : Z) :
  finite_below k x -> exists r, round x = Py.Return r.
Proof.
  destruct x; cbn [finite_below round]; intros H; try contradiction; eexists; reflexivity.
Qed.

(** A float of the interval (0, 1] is finite and below [2^1]. *)
Lemma unit_interval_finite (scale : float) :
  representable scale = true -> ltb f0_0 scale = true -> leb scale f1_0 = true ->
  finite_below 1 scale.
Proof.
  unfold representable, ltb, leb, f0_0, f1_0.
  destruct scale as [s|s| |s m e]; cbn [finite_below valid_binary]; intros Hv Hlt Hle;
    try exact I; try discriminate.
  - destruct s; discriminate.
  - unfold bounded, canonical_mantissa, fexp, emin, prec, emax in Hv.
    apply andb_true_iff in Hv. destruct Hv as [Hc _]. apply Z.eqb_eq in Hc.
    unfold SFleb, SFcompare in Hle.
    destruct s; [cbn in Hlt; discriminate|].
    destruct (Z.compare_spec e (-52)); try discriminate; lia.
Qed.

(** The rounded product of a dimension and a scale of (0, 1] exists. *)
Lemma round_int_mul_total (n : Z) (scale : float) :
  0 <= n < 2 ^ 63 -> finite_below 1 scale ->
  exists x r, int_mul n scale = Py.Return x /\ round x = Py.Return r.
Proof.
  intros Hn Hs. destruct (of_int_finite n Hn) as (x & Ex & Fx).
  unfold int_mul. rewrite Ex. cbn [Py.bind].
  pose proof (mul_finite x scale 64 1 Fx Hs ltac:(lia) ltac:(lia)) as Hm.
  destruct (round_finite _ _ Hm) as [r Er].
  eexists; eexists; split; [reflexivity|exact Er].
Qed.

End FloatFacts.

(** ** Facts about the helpers of the node *)

Import PyFloat FloatFacts.

Lemma bind_Return_inv {A B : Type} (c : result A) (k : A -> result B) (r : B) :
  bind c k = Return r -> exists a, c = Return a /\ k a = Return r.
Proof.
  destruct c as [a|e]; cbn [bind]; intros H; [exists a; split; [reflexivity|exact H]|discriminate].
Qed.

Ltac inv_bind H :=
  let a := fresh "a" in
  let E := fresh "E" in
  apply bind_Return_inv in H; destruct H as (a & E & H).

Lemma granularity_pos (m : Z) : In m granularities -> 0 < m.
Proof. unfold granularities. cbn [In]. intros H. lia. Qed.

(** *** [_snap_dim] *)

(** For a positive [multiple], [_snap_dim] returns the multiple at or below
    [value] when there is a positive one, and [multiple] itself otherwise. *)
Lemma snap_dim_spec (value multiple : Z) :
  0 < multiple ->
  exists r, _snap_dim value multiple = Return r /\
            multiple <= r /\ (multiple | r) /\
            (multiple <= value -> r <= value < r + multiple) /\
            (value < multiple -> r = multiple).
Proof.
  intros Hm. unfold _snap_dim, PyInt.floordiv.
  destruct (Z.leb_spec value 0) as [Hv|Hv].
  - exists multiple. split; [reflexivity|].
    split; [lia|]. split; [apply Z.divide_refl|]. split; lia.
  - destruct (Z.eqb_spec multiple 0) as [Hz|_]; [lia|]. cbn [bind].
    pose proof (Z.mul_div_le value multiple Hm) as Hle.
    pose proof (Z.mul_succ_div_gt value multiple Hm) as Hgt.
    pose proof (Z.div_pos value multiple ltac:(lia) Hm) as Hq.
    destruct (Z.ltb_spec (value / multiple * multiple) multiple) as [Hs|Hs].
    + exists multiple. split; [reflexivity|].
      split; [lia|]. split; [apply Z.divide_refl|].
      assert (value / multiple = 0) by nia.
      split; [nia|lia].
    + exists (value / multiple * multiple). split; [reflexivity|].
      split; [lia|]. split; [apply Z.divide_factor_r|]. split; nia.
Qed.

(** The re-snap of the original dimension, as both scaling paths write it. *)
Lemma clamp_spec (snapped w multiple : Z) :
  0 < multiple -> multiple <= snapped -> (multiple | snapped) ->
  exists r, (if snapped >? w then _snap_dim w multiple else Return snapped) = Return r /\
            multiple <= r /\ (multiple | r) /\
            (multiple <= w -> r <= w) /\ (w < multiple -> r = multiple).
Proof.
  intros Hm Hs Hd. destruct (Z.gtb_spec snapped w) as [Hgt|Hle].
  - destruct (snap_dim_spec w multiple Hm) as (r & E & H1 & H2 & H3 & H4).
    exists r. rewrite E. split; [reflexivity|]. split; [exact H1|]. split; [exact H2|].
    split; [lia|exact H4].
  - exists snapped. split; [reflexivity|]. split; [exact Hs|]. split; [exact Hd|].
    split; lia.
Qed.

(** *** [_scale_and_snap] *)

Ltac snap_facts Hm E :=
  match type of E with
  | _snap_dim ?v ?m = Return ?a =>
      let r := fresh "r" in
      let E' := fresh "E" in
      destruct (snap_dim_spec v m Hm) as (r & E' & ? & ? & ? & ?);
      rewrite E in E'; injection E' as <-
  end.

Ltac clamp_facts Hm E :=
  match type of E with
  | (if ?s >? ?w then _snap_dim ?w ?m else Return ?s) = Return ?a =>
      let r := fresh "r" in
      let E' := fresh "E" in
      destruct (clamp_spec s w m Hm) as (r & E' & ? & ? & ? & ?);
      [assumption|assumption|];
      rewrite E in E'; injection E' as <-
  end.

(** Whatever the scale, a returned dimension is a multiple of the
    granularity, at least one unit, at most the input dimension when that
    holds a unit, and exactly one unit when it does not. *)
Lemma scale_and_snap_result (w h : Z) (scale : float) (m nw nh rw rh : Z) :
  0 < m ->
  _scale_and_snap w h scale m = Return (nw, nh, rw, rh) ->
  (m <= nw /\ (m | nw) /\ (m <= w -> nw <= w) /\ (w < m -> nw = m)) /\
  (m <= nh /\ (m | nh) /\ (m <= h -> nh <= h) /\ (h < m -> nh = m)).
Proof.
  intros Hm H. unfold _scale_and_snap in H.
  inv_bind H. inv_bind H. inv_bind H. inv_bind H. inv_bind H.
  inv_bind H. inv_bind H. inv_bind H. inv_bind H. inv_bind H.
  injection H as <- <- <- <-.
  snap_facts Hm E2. snap_facts Hm E4.
  clamp_facts Hm E5. clamp_facts Hm E6.
  repeat split; assumption.
Qed.

Lemma scale_and_snap_total (w h : Z) (scale : float) (m : Z) :
  0 <= w < 2 ^ 63 -> 0 <= h < 2 ^ 63 -> finite_below 1 scale -> 0 < m ->
  exists r, _scale_and_snap w h scale m = Return r.
Proof.
  intros Hw Hh Hs Hm. unfold _scale_and_snap.
  destruct (round_int_mul_total w scale Hw Hs) as (xw & rw & Ew & Rw).
  destruct (round_int_mul_total h scale Hh Hs) as (xh & rh & Eh & Rh).
  rewrite Ew, Eh. cbn [bind]. rewrite Rw, Rh. cbn [bind].
  destruct (snap_dim_spec rw m Hm) as (sw & Esw & Hsw1 & Hsw2 & _).
  destruct (snap_dim_spec rh m Hm) as (sh & Esh & Hsh1 & Hsh2 & _).
  rewrite Esw. cbn [bind]. rewrite Esh. cbn [bind].
  destruct (clamp_spec sw w m Hm Hsw1 Hsw2) as (cw & Ecw & _).
  destruct (clamp_spec sh h m Hm Hsh1 Hsh2) as (ch & Ech & _).
  rewrite Ecw. cbn [bind]. rewrite Ech. cbn [bind].
  eexists; reflexivity.
Qed.

(** *** The static table *)

Lemma key_eqb_eq (a b : Z * Z) : PyDict.key_eqb a b = true <-> a = b.
Proof.
  destruct a as [a1 a2], b as [b1 b2]. unfold PyDict.key_eqb. cbn [fst snd].
  rewrite andb_true_iff, !Z.eqb_eq. split; [intros [-> ->]; reflexivity|].
  intros H. injection H as -> ->. split; reflexivity.
Qed.

Lemma get_snoc {V : Type} (items : list ((Z * Z) * V)) (item : (Z * Z) * V) (key : Z * Z) :
  PyDict.get (items ++ [item]) key
  = if PyDict.key_eqb (fst item) key then Some (snd item) else PyDict.get items key.
Proof. unfold PyDict.get. rewrite fold_left_app. reflexivity. Qed.

(** A lookup answers with an item written under that very key. *)
Lemma get_Some_In {V : Type} (items : list ((Z * Z) * V)) (key : Z * Z) (v : V) :
  PyDict.get items key = Some v -> In (key, v) items.
Proof.
  induction items as [|item items IH] using rev_ind; [discriminate|].
  rewrite get_snoc. rewrite in_app_iff.
  destruct (PyDict.key_eqb (fst item) key) eqn:E.
  - apply key_eqb_eq in E. intros H. injection H as <-. right. left.
    rewrite <- E. destruct item; reflexivity.
  - intros H. left. apply IH, H.
Qed.

Lemma get_None_iff {V : Type} (items : list ((Z * Z) * V)) (key : Z * Z) :
  PyDict.get items key = None <-> ~ In key (map fst items).
Proof.
  induction items as [|item items IH] using rev_ind; [cbn; tauto|].
  rewrite get_snoc, map_app, in_app_iff. cbn [map In].
  destruct (PyDict.key_eqb (fst item) key) eqn:E.
  - apply key_eqb_eq in E. split; [discriminate|]. intros H. exfalso. apply H. auto.
  - rewrite IH. split; [|tauto]. intros H [H1|[H1|[]]]; [tauto|].
    apply key_eqb_eq in H1. congruence.
Qed.

Lemma table_miss (w h : Z) :
  ~ table_key w h -> PyDict.get _get_common_resolution_table (w, h) = None.
Proof. intros H. apply get_None_iff, H. Qed.

Lemma table_suggestions_miss (w h : Z) : ~ table_key w h -> table_suggestions w h = [].
Proof. intros H. unfold table_suggestions. rewrite (table_miss w h H). reflexivity. Qed.

(** *** [_get_suggestion_target] *)

Lemma bind_eta4 (c : result (Z * Z * Z * Z)) :
  (let* '(a, b, c, d) := c in Return (a, b, c, d)) = c.
Proof. destruct c as [[[[a b] c] d]|e]; reflexivity. Qed.

(** The test of line 239 sends a preset to the half scale. *)
Lemma suggestion_target_rank4 (w h m : Z) (scale_preset : string) :
  (PyStr.contains "suggestion 4" (PyStr.lower scale_preset)
   || PyStr.contains "very low vram" (PyStr.lower scale_preset))%bool = true ->
  _get_suggestion_target w h m scale_preset = _scale_and_snap w h f0_5 m.
Proof.
  intros H. unfold _get_suggestion_target. rewrite H. apply bind_eta4.
Qed.

(** Without entries, the rank alone chooses the scale. *)
Lemma suggestion_target_dynamic (w h m : Z) (scale_preset : string) :
  (PyStr.contains "suggestion 4" (PyStr.lower scale_preset)
   || PyStr.contains "very low vram" (PyStr.lower scale_preset))%bool = false ->
  table_suggestions w h = [] ->
  _get_suggestion_target w h m scale_preset
  = _scale_and_snap w h
      (if PyStr.contains "suggestion 1" (PyStr.lower scale_preset) then f0_8
       else if PyStr.contains "suggestion 2" (PyStr.lower scale_preset) then f0_7
       else if PyStr.contains "suggestion 3" (PyStr.lower scale_preset) then f0_6
       else f0_5) m.
Proof.
  intros H Hs. unfold _get_suggestion_target. rewrite H, Hs. apply bind_eta4.
Qed.

Lemma suggestion_target_result (w h m : Z) (scale_preset : string) (nw nh rw rh : Z) :
  0 < m ->
  _get_suggestion_target w h m scale_preset = Return (nw, nh, rw, rh) ->
  (m <= nw /\ (m | nw) /\ (m <= w -> nw <= w) /\ (w < m -> nw = m)) /\
  (m <= nh /\ (m | nh) /\ (m <= h -> nh <= h) /\ (h < m -> nh = m)).
Proof.
  intros Hm H. unfold _get_suggestion_target in H.
  destruct (_ || _)%bool.
  { rewrite bind_eta4 in H. exact (scale_and_snap_result _ _ _ _ _ _ _ _ Hm H). }
  destruct (table_suggestions w h) as [|first others].
  { rewrite bind_eta4 in H. exact (scale_and_snap_result _ _ _ _ _ _ _ _ Hm H). }
  match type of H with
  | match ?i with _ => _ end = _ => destruct i as [idx|]
  end.
  2:{ rewrite bind_eta4 in H. exact (scale_and_snap_result _ _ _ _ _ _ _ _ Hm H). }
  destruct (if (idx <? _)%nat then _ else _) as [target_w target_h].
  inv_bind H. inv_bind H. inv_bind H. inv_bind H. injection H as <- <- <- <-.
  snap_facts Hm E. snap_facts Hm E0. clamp_facts Hm E1. clamp_facts Hm E2.
  repeat split; assumption.
Qed.

Lemma literal_scales_finite :
  finite_below 1 f0_5 /\ finite_below 1 f0_6 /\ finite_below 1 f0_7 /\ finite_below 1 f0_8.
Proof. unfold f0_5, f0_6, f0_7, f0_8. cbn. lia. Qed.

Lemma suggestion_target_total (w h m : Z) (scale_preset : string) :
  0 <= w < 2 ^ 63 -> 0 <= h < 2 ^ 63 -> 0 < m ->
  exists r, _get_suggestion_target w h m scale_preset = Return r.
Proof.
  intros Hw Hh Hm. destruct literal_scales_finite as (F5 & F6 & F7 & F8).
  unfold _get_suggestion_target.
  destruct (_ || _)%bool.
  { rewrite bind_eta4. apply scale_and_snap_total; assumption. }
  assert (Hdyn : forall scale, In scale [f0_8; f0_7; f0_6; f0_5] ->
            exists r, (let* '(new_w, new_h, raw_w, raw_h) := _scale_and_snap w h scale m in
                       Return (new_w, new_h, raw_w, raw_h)) = Return r).
  { intros scale Hin. rewrite bind_eta4. apply scale_and_snap_total; try assumption.
    cbn [In] in Hin. destruct Hin as [<-|[<-|[<-|[<-|[]]]]]; assumption. }
  assert (Hscale : In (if PyStr.contains "suggestion 1" (PyStr.lower scale_preset) then f0_8
                       else if PyStr.contains "suggestion 2" (PyStr.lower scale_preset) then f0_7
                       else if PyStr.contains "suggestion 3" (PyStr.lower scale_preset) then f0_6
                       else f0_5) [f0_8; f0_7; f0_6; f0_5]).
  { cbn [In]. repeat destruct (PyStr.contains _ _); auto. }
  destruct (table_suggestions w h) as [|first others]; [apply Hdyn, Hscale|].
  match goal with
  | |- exists r, match ?i with _ => _ end = _ => destruct i as [idx|] eqn:Ei
  end; [|apply Hdyn, Hscale].
  destruct (if (idx <? _)%nat then _ else _) as [target_w target_h].
  destruct (snap_dim_spec target_w m Hm) as (sw & Esw & Hsw1 & Hsw2 & _).
  destruct (snap_dim_spec target_h m Hm) as (sh & Esh & Hsh1 & Hsh2 & _).
  rewrite Esw. cbn [bind]. rewrite Esh. cbn [bind].
  destruct (clamp_spec sw w m Hm Hsw1 Hsw2) as (cw & Ecw & _).
  destruct (clamp_spec sh h m Hm Hsh1 Hsh2) as (ch & Ech & _).
  rewrite Ecw. cbn [bind]. rewrite Ech. cbn [bind].
  eexists; reflexivity.
Qed.

(** *** [_profile_to_multiple] and [_scale_from_percentage_preset] *)

Lemma profile_granularity (model_profile : string) :
  In (fst (_profile_to_multiple model_profile)) granularities.
Proof.
  unfold _profile_to_multiple, granularities.
  repeat destruct (PyStr.startswith model_profile _); cbn; auto.
Qed.

(** Each preset gives a scale of (0, 1]: 1.0, 0.9, 0.8, 0.7, 0.6, 0.5 or 0.4. *)
Lemma percentage_preset_total (scale_preset : string) :
  exists reduction scale,
    _scale_from_percentage_preset scale_preset = Return (reduction, scale) /\
    finite_below 1 scale.
Proof.
  unfold _scale_from_percentage_preset.
  repeat destruct (PyStr.startswith scale_preset _);
    eexists; eexists; (split; [vm_compute; reflexivity|cbn; lia]).
Qed.

Lemma static_resolution_suggestions_total (w h m : Z) :
  0 <= w < 2 ^ 63 -> 0 <= h < 2 ^ 63 -> 0 < m ->
  exists text, _static_resolution_suggestions w h m = Return text.
Proof.
  intros Hw Hh Hm. unfold _static_resolution_suggestions.
  destruct (scale_and_snap_total w h f0_5 m Hw Hh (proj1 literal_scales_finite) Hm)
    as ([[[low_w low_h] raw_w] raw_h] & E).
  rewrite E. cbn [bind]. eexists; reflexivity.
Qed.

(** *** [calc] *)

Lemma calc_result (image : Image) (model_profile scale_preset : string)
      (image' : Image) (new_w new_h : Z) (info : string) :
  0 < shape2 image -> 0 < shape1 image ->
  calc image model_profile scale_preset = Return (image', new_w, new_h, info) ->
  let w := shape2 image in
  let h := shape1 image in
  let m := fst (_profile_to_multiple model_profile) in
  image' = image /\
  (m <= new_w /\ (m | new_w) /\ (m <= w -> new_w <= w) /\ (w < m -> new_w = m)) /\
  (m <= new_h /\ (m | new_h) /\ (m <= h -> new_h <= h) /\ (h < m -> new_h = m)).
Proof.
  intros Hw Hh H. cbv zeta.
  pose proof (granularity_pos _ (profile_granularity model_profile)) as Hm.
  unfold calc in H.
  destruct (Z.leb_spec (shape1 image) 0) as [?|_]; [lia|].
  destruct (Z.leb_spec (shape2 image) 0) as [?|_]; [lia|].
  cbn [orb] in H.
  destruct (_profile_to_multiple model_profile) as [m label]. cbn [fst] in *.
  inv_bind H. destruct a as [[reduction scale] [[[nw nh] rw] rh]].
  inv_bind H. injection H as <- <- <- <-.
  split; [reflexivity|].
  destruct (PyStr.startswith scale_preset "Resolution suggestion").
  - inv_bind E. destruct a0 as [[[nw' nh'] rw'] rh'].
    inv_bind E. injection E as _ _ <- <- _ _.
    exact (suggestion_target_result _ _ _ _ _ _ _ _ Hm E1).
  - inv_bind E. destruct a0 as [reduction' scale'].
    inv_bind E. injection E as _ _ ->.
    exact (scale_and_snap_result _ _ _ _ _ _ _ _ Hm E2).
Qed.

Lemma calc_total (image : Image) (model_profile scale_preset : string) :
  dimension (shape2 image) -> dimension (shape1 image) ->
  exists out, calc image model_profile scale_preset = Return out.
Proof.
  unfold dimension. intros Hw Hh.
  pose proof (profile_granularity model_profile) as Hg.
  pose proof (granularity_pos _ Hg) as Hm.
  assert (Hm63 : fst (_profile_to_multiple model_profile) < 2 ^ 63)
    by (unfold granularities in Hg; cbn [In] in Hg; lia).
  unfold calc.
  destruct (Z.leb_spec (shape1 image) 0) as [?|_]; [lia|].
  destruct (Z.leb_spec (shape2 image) 0) as [?|_]; [lia|].
  cbn [orb].
  destruct (_profile_to_multiple model_profile) as [m label]. cbn [fst] in *.
  destruct (static_resolution_suggestions_total (shape2 image) (shape1 image) m)
    as (text & Etext); try lia.
  destruct (PyStr.startswith scale_preset "Resolution suggestion").
  - destruct (suggestion_target_total (shape2 image) (shape1 image) m scale_preset)
      as ([[[nw nh] rw] rh] & Et); try lia.
    destruct (suggestion_target_result _ _ _ _ _ _ _ _ Hm Et) as [(L1 & _ & L2 & L3) _].
    rewrite Et. cbn [bind].
    destruct (Z.gtb_spec (shape2 image) 0) as [_|?]; [|lia].
    destruct (of_int_nonzero (shape2 image) Hw) as (fm & fe & Ef).
    destruct (of_int_finite nw) as (x & Ex & _); [lia|].
    rewrite Ef. cbn [bind]. unfold int_truediv. rewrite Ex. cbn [bind truediv].
    rewrite Etext. cbn [bind]. eexists; reflexivity.
  - destruct (percentage_preset_total scale_preset) as (reduction & scale & Ep & Fs).
    rewrite Ep. cbn [bind].
    destruct (scale_and_snap_total (shape2 image) (shape1 image) scale m)
      as ([[[nw nh] rw] rh] & Et); try lia; try assumption.
    rewrite Et. cbn [bind]. rewrite Etext. cbn [bind]. eexists; reflexivity.
Qed.

(** ** The literals and the menus *)

(** Each float literal of the source is the float nearest to its decimal
    value. *)
Lemma literals_nearest :
  f1_0 = nearest 1 1 /\ f10_0 = nearest 10 1 /\ f20_0 = nearest 20 1 /\
  f30_0 = nearest 30 1 /\ f40_0 = nearest 40 1 /\ f50_0 = nearest 50 1 /\
  f60_0 = nearest 60 1 /\ f100_0 = nearest 100 1 /\ f0_1 = nearest 1 10 /\
  f0_5 = nearest 5 10 /\ f0_6 = nearest 6 10 /\ f0_7 = nearest 7 10 /\
  f0_8 = nearest 8 10.
Proof. vm_compute. repeat split. Qed.

Example snap_dim_504_16 : _snap_dim 504 16 = Return 496.
Proof. reflexivity. Qed.

Example snap_dim_zero_multiple : _snap_dim 5 0 = Raise ZeroDivisionError.
Proof. reflexivity. Qed.

Example scale_and_snap_huge : _scale_and_snap (2 ^ 1024) 1 f0_5 8 = Raise OverflowError.
Proof. vm_compute. reflexivity. Qed.

Example suggestion_1_on_1920x1080 :
  _get_suggestion_target 1920 1080 8 "Resolution suggestion 1 (highest from table)"
  = Return (1600, 896, 1600, 900).
Proof. vm_compute. reflexivity. Qed.

Example preset_0_on_1920x1080 :
  exists info,
    calc (image_of_size 1920 1080) "multiple_of: 8 (SD / General (8))"
         "0% smaller (keep original) (1920x1080→1920x1080, 1280x720→1280x720)"
    = Return (image_of_size 1920 1080, 1920, 1080, info).
Proof. eexists. vm_compute. reflexivity. Qed.

(** ** The properties of the specification *)

(** C1, as stated, fails: on a 5x5 input with the scale 0.5 and the
    granularity 8 the returned dimensions are 8 and 8, above the input. *)
Lemma scale_and_snap_exceeds_small_input :
  0 < 5 /\ unit_scale f0_5 /\ In 8 granularities /\
  exists nw nh rw rh,
    _scale_and_snap 5 5 f0_5 8 = Return (nw, nh, rw, rh) /\ ~ (nw <= 5 /\ nh <= 5).
Proof.
  split; [lia|]. split; [repeat split|]. split; [cbn; auto|].
  exists 8, 8, 2, 2. split; [vm_compute; reflexivity|lia].
Qed.

(** C1 (amended). For every width and height above zero, every scale of
    (0, 1] and every granularity of the four profiles, a pair returned by
    [_scale_and_snap] does not exceed the input on an axis whose input
    dimension holds at least one unit of the granularity, and is exactly one
    unit on an axis whose input dimension is smaller; for dimensions in the
    range of a tensor shape the call returns. *)
Theorem scale_and_snap_within_input_or_unit (w h : Z) (scale : float) (m : Z) :
  0 < w -> 0 < h -> unit_scale scale -> In m granularities ->
  (forall nw nh rw rh,
      _scale_and_snap w h scale m = Return (nw, nh, rw, rh) ->
      (m <= w -> nw <= w) /\ (w < m -> nw = m) /\
      (m <= h -> nh <= h) /\ (h < m -> nh = m)) /\
  (w < 2 ^ 63 -> h < 2 ^ 63 -> exists out, _scale_and_snap w h scale m = Return out).
Proof.
  intros Hw Hh (Hr & Hlt & Hle) Hg. pose proof (granularity_pos m Hg) as Hm. split.
  - intros nw nh rw rh H.
    destruct (scale_and_snap_result _ _ _ _ _ _ _ _ Hm H)
      as [(_ & _ & W1 & W2) (_ & _ & H1 & H2)].
    repeat split; assumption.
  - intros Hw63 Hh63. apply scale_and_snap_total; try lia.
    apply unit_interval_finite; assumption.
Qed.

Lemma scale_and_snap_within_input_or_unit_witness :
  (0 < 1280 /\ 0 < 720 /\ unit_scale f0_7 /\ In 16 granularities) /\
  _scale_and_snap 1280 720 f0_7 16 = Return (896, 496, 896, 504) /\
  896 <= 1280 /\ 496 <= 720.
Proof.
  assert (H0 : 0 < 1280) by reflexivity.
  assert (H1 : 0 < 720) by reflexivity.
  assert (H2 : unit_scale f0_7) by (repeat split).
  assert (H3 : In 16 granularities) by (right; left; reflexivity).
  assert (E : _scale_and_snap 1280 720 f0_7 16 = Return (896, 496, 896, 504))
    by (vm_compute; reflexivity).
  destruct (scale_and_snap_within_input_or_unit 1280 720 f0_7 16 H0 H1 H2 H3) as [P _].
  destruct (P 896 496 896 504 E) as (Pw & _ & Ph & _).
  split; [repeat split; assumption|].
  split; [exact E|].
  split; [apply Pw|apply Ph]; discriminate.
Defined.

(** C2, as stated, fails: with the granularity 16 the preset "30% smaller"
    does not send 1280x720 to the pair (896, 504). *)
Lemma preset_30_on_1280x720_not_504_at_16 :
  ~ (exists reduction scale rw rh,
       _scale_from_percentage_preset
         "30% smaller (1920x1080→1344x756, 1280x720→896x504)"
       = Return (reduction, scale) /\
       _scale_and_snap 1280 720 scale 16 = Return (896, 504, rw, rh)).
Proof.
  intros (reduction & scale & rw & rh & Ep & Es).
  vm_compute in Ep. injection Ep as _ <-.
  vm_compute in Es. discriminate.
Qed.

(** C2 (amended). The preset "30% smaller" is the scale 0.7; applied to
    1280x720 it gives the raw pair (896, 504), which the granularity 16 snaps
    to the output pair (896, 496), as [calc] returns it; the granularity 8
    leaves (896, 504). *)
Theorem preset_30_on_1280x720 :
  let preset := "30% smaller (1920x1080→1344x756, 1280x720→896x504)" in
  _scale_from_percentage_preset preset = Return (f30_0, f0_7) /\
  _scale_and_snap 1280 720 f0_7 16 = Return (896, 496, 896, 504) /\
  _scale_and_snap 1280 720 f0_7 8 = Return (896, 504, 896, 504) /\
  exists info,
    calc (image_of_size 1280 720) "multiple_of: 16 (WAN 2.2 / Strict (16))" preset
    = Return (image_of_size 1280 720, 896, 496, info).
Proof.
  cbv zeta. split; [vm_compute; reflexivity|].
  split; [vm_compute; reflexivity|].
  split; [vm_compute; reflexivity|].
  eexists. vm_compute. reflexivity.
Qed.

(** C3, as stated, fails: for the value 5 and the multiple 8 the result is
    8, which exceeds the value. *)
Lemma snap_dim_exceeds_small_value :
  In 8 granularities /\
  exists r, _snap_dim 5 8 = Return r /\ ~ (r <= 5).
Proof.
  split; [cbn; auto|]. exists 8. split; [reflexivity|lia].
Qed.

(** C3 (amended). For every value and every multiple of the four profiles,
    [_snap_dim] returns the largest multiple not exceeding the value when the
    value is at least [multiple], and [multiple] itself when the value is
    smaller, in particular when the value is zero or negative; in every case
    the result is a positive multiple of [multiple]. *)
Theorem snap_dim_floor_or_unit (value multiple : Z) :
  In multiple granularities ->
  exists r,
    _snap_dim value multiple = Return r /\
    (multiple <= value ->
       r <= value /\ forall k, k * multiple <= value -> k * multiple <= r) /\
    (value < multiple -> r = multiple) /\
    (value <= 0 -> r = multiple) /\
    0 < r /\ (exists k, 0 < k /\ r = k * multiple).
Proof.
  intros Hg. pose proof (granularity_pos multiple Hg) as Hm.
  destruct (snap_dim_spec value multiple Hm) as (r & E & H1 & [k Hk] & H3 & H4).
  exists r. split; [exact E|].
  split; [|split; [exact H4|split; [intros; apply H4; lia|split; [lia|]]]].
  - intros Hv. specialize (H3 Hv). split; [lia|]. intros j Hj. subst r.
    assert (Hlt : j * multiple < (k + 1) * multiple) by lia.
    apply Z.mul_lt_mono_pos_r in Hlt; [|exact Hm].
    apply Z.mul_le_mono_nonneg_r; lia.
  - exists k. split; [nia|exact Hk].
Qed.

Lemma snap_dim_floor_or_unit_witness :
  In 16 granularities /\
  _snap_dim 504 16 = Return 496 /\ 496 <= 504 /\ 504 < 496 + 16.
Proof.
  assert (Hg : In 16 granularities) by (right; left; reflexivity).
  split; [exact Hg|].
  destruct (snap_dim_floor_or_unit 504 16 Hg) as (r & E & Hfloor & _).
  assert (Er : r = 496) by (vm_compute in E; injection E as <-; reflexivity).
  subst r. split; [exact E|].
  split; [apply Hfloor; discriminate|reflexivity].
Defined.

(** C4. For every image of width and height above zero, every profile
    selector and every strategy selector, the width and the height that
    [calc] returns are positive multiples of the granularity the profile
    resolves to, hence at least one unit of it; for dimensions in the range
    of a tensor shape [calc] returns. *)
Theorem calc_output_granular (image : Image) (model_profile scale_preset : string) :
  0 < shape2 image -> 0 < shape1 image ->
  let multiple_of := fst (_profile_to_multiple model_profile) in
  In multiple_of granularities /\
  (forall image' new_w new_h info,
      calc image model_profile scale_preset = Return (image', new_w, new_h, info) ->
      (0 < new_w /\ (multiple_of | new_w) /\ multiple_of <= new_w) /\
      (0 < new_h /\ (multiple_of | new_h) /\ multiple_of <= new_h)) /\
  (shape2 image < 2 ^ 63 -> shape1 image < 2 ^ 63 ->
   exists out, calc image model_profile scale_preset = Return out).
Proof.
  intros Hw Hh multiple_of.
  pose proof (profile_granularity model_profile) as Hg.
  pose proof (granularity_pos _ Hg) as Hm. fold multiple_of in Hg, Hm.
  split; [exact Hg|]. split.
  - intros image' new_w new_h info H.
    destruct (calc_result _ _ _ _ _ _ _ Hw Hh H) as (_ & (W1 & W2 & _) & (H1 & H2 & _)).
    fold multiple_of in W1, W2, H1, H2.
    repeat split; try assumption; lia.
  - intros Hw63 Hh63. apply calc_total; unfold dimension; lia.
Qed.

Lemma calc_output_granular_witness :
  (0 < 1280 /\ 0 < 720) /\
  exists info,
    calc (image_of_size 1280 720) "multiple_of: 16 (WAN 2.2 / Strict (16))"
         "Resolution suggestion 3 (lowest from table)"
    = Return (image_of_size 1280 720, 960, 528, info) /\
    (16 | 960) /\ (16 | 528).
Proof.
  assert (H0 : 0 < 1280) by reflexivity.
  assert (H1 : 0 < 720) by reflexivity.
  split; [split; assumption|].
  destruct (calc_output_granular (image_of_size 1280 720)
              "multiple_of: 16 (WAN 2.2 / Strict (16))"
              "Resolution suggestion 3 (lowest from table)" H0 H1) as (_ & P & _).
  eexists. split; [vm_compute; reflexivity|].
  match goal with
  | |- (_ | _) /\ (_ | _) =>
      destruct (P (image_of_size 1280 720) 960 528 _ ltac:(vm_compute; reflexivity))
        as ((_ & Dw & _) & (_ & Dh & _))
  end.
  split; [exact Dw|exact Dh].
Defined.

(** C5. For every image whose width or height is zero or negative, whatever
    the selectors, [calc] raises nothing and returns the original width and
    height with an info string that contains "Invalid image size". *)
Theorem calc_invalid_size (image : Image) (model_profile scale_preset : string) :
  shape2 image <= 0 \/ shape1 image <= 0 ->
  exists info,
    calc image model_profile scale_preset
    = Return (image, shape2 image, shape1 image, info) /\
    PyStr.contains "Invalid image size" info = true.
Proof.
  intros H. unfold calc.
  assert (E : ((shape1 image <=? 0) || (shape2 image <=? 0))%bool = true).
  { apply orb_true_iff. rewrite !Z.leb_le. tauto. }
  rewrite E. eexists. split; reflexivity.
Qed.

Lemma calc_invalid_size_witness :
  (0 <= 0 \/ 1080 <= 0) /\
  exists info,
    calc (image_of_size 0 1080) "multiple_of: 8 (SD / General (8))"
         "Resolution suggestion 4 (very low VRAM)"
    = Return (image_of_size 0 1080, 0, 1080, info) /\
    PyStr.contains "Invalid image size" info = true.
Proof.
  assert (H : shape2 (image_of_size 0 1080) <= 0 \/ shape1 (image_of_size 0 1080) <= 0)
    by (left; discriminate).
  split; [exact H|].
  exact (calc_invalid_size (image_of_size 0 1080) "multiple_of: 8 (SD / General (8))"
           "Resolution suggestion 4 (very low VRAM)" H).
Defined.

(** C6. For every width, height and granularity, the selector of suggestion
    rank 4 makes [_get_suggestion_target] return what
    [_scale_and_snap w h 0.5 multiple_of] returns, whether or not (w, h) is a
    key of the static table. *)
Theorem suggestion_4_is_half_scale (w h multiple_of : Z) :
  _get_suggestion_target w h multiple_of "Resolution suggestion 4 (very low VRAM)"
  = _scale_and_snap w h f0_5 multiple_of.
Proof. apply suggestion_target_rank4. vm_compute. reflexivity. Qed.

(** C7. For every width, height and granularity such that (w, h) is not a
    key of the static table, the selectors of the suggestion ranks 1, 2 and 3
    return what [_scale_and_snap] returns for the scales 0.8, 0.7 and 0.6. *)
Theorem suggestions_1_2_3_dynamic_fallback (w h multiple_of : Z) :
  ~ table_key w h ->
  _get_suggestion_target w h multiple_of "Resolution suggestion 1 (highest from table)"
  = _scale_and_snap w h f0_8 multiple_of /\
  _get_suggestion_target w h multiple_of "Resolution suggestion 2 (lower from table)"
  = _scale_and_snap w h f0_7 multiple_of /\
  _get_suggestion_target w h multiple_of "Resolution suggestion 3 (lowest from table)"
  = _scale_and_snap w h f0_6 multiple_of.
Proof.
  intros Hk. pose proof (table_suggestions_miss w h Hk) as Hs.
  repeat split;
    (rewrite suggestion_target_dynamic; [reflexivity|vm_compute; reflexivity|exact Hs]).
Qed.

Lemma suggestions_1_2_3_dynamic_fallback_witness :
  ~ table_key 1234 987 /\
  _get_suggestion_target 1234 987 8 "Resolution suggestion 2 (lower from table)"
  = Return (864, 688, 864, 691).
Proof.
  assert (Hk : ~ table_key 1234 987)
    by (apply (proj1 (get_None_iff _get_common_resolution_table (1234, 987)));
        vm_compute; reflexivity).
  split; [exact Hk|].
  destruct (suggestions_1_2_3_dynamic_fallback 1234 987 8 Hk) as (_ & E2 & _).
  rewrite E2. vm_compute. reflexivity.
Defined.

(** C8, as stated, fails: the entry of the key (3840, 2160) holds five
    suggested pairs, more than three. *)
Lemma table_entry_with_5_suggestions :
  table_key 3840 2160 /\ ~ (List.length (table_suggestions 3840 2160) <= 3)%nat.
Proof.
  split; [left; reflexivity|]. vm_compute. lia.
Qed.

Lemma table_entry_lengths :
  forallb (fun item =>
             let n := List.length (_parse_res_list (snd item)) in
             (3 <=? n)%nat && (n <=? 5)%nat)%bool
          _get_common_resolution_table = true.
Proof. vm_compute. reflexivity. Qed.

Lemma prefix_empty (s : string) : String.prefix "" s = true.
Proof. destruct s; reflexivity. Qed.

Lemma string_app_assoc (a b c : string) : (a ++ b) ++ c = a ++ (b ++ c).
Proof. induction a as [|x a IH]; [reflexivity|]. cbn [append]. rewrite IH. reflexivity. Qed.

(** [s.startswith(p)] holds exactly of the texts [p ++ rest]. *)
Lemma startswith_iff (s p : string) :
  PyStr.startswith s p = true <-> exists rest, s = p ++ rest.
Proof.
  unfold PyStr.startswith. revert s.
  induction p as [|a p IH]; intros s.
  - rewrite prefix_empty. split; [intros _; exists s; reflexivity|reflexivity].
  - destruct s as [|b s]; cbn [String.prefix append].
    + split; [discriminate|intros [rest H]; discriminate H].
    + destruct (ascii_dec a b) as [->|Hne].
      * rewrite IH. split; intros [rest H]; exists rest; [rewrite H; reflexivity|].
        injection H as H. exact H.
      * split; [discriminate|]. intros [rest H]. injection H as H _. congruence.
Qed.

Lemma table_hit (w h : Z) :
  table_key w h ->
  exists text,
    PyDict.get _get_common_resolution_table (w, h) = Some text /\
    In ((w, h), text) _get_common_resolution_table.
Proof.
  intros Hk.
  destruct (PyDict.get _get_common_resolution_table (w, h)) as [text|] eqn:E.
  - exists text. split; [reflexivity|apply get_Some_In, E].
  - exfalso. apply (proj1 (get_None_iff _ _) E), Hk.
Qed.

(** With entries at hand, a rank within their number reads the entry of
    that rank: the raw pair returned is the entry as written. *)
Lemma suggestion_target_table_entry (w h m : Z) (scale_preset : string) (i : nat) :
  0 < m ->
  (PyStr.contains "suggestion 4" (PyStr.lower scale_preset)
   || PyStr.contains "very low vram" (PyStr.lower scale_preset))%bool = false ->
  (if PyStr.contains "suggestion 1" (PyStr.lower scale_preset) then Some 0%nat
   else if PyStr.contains "suggestion 2" (PyStr.lower scale_preset) then Some 1%nat
   else if PyStr.contains "suggestion 3" (PyStr.lower scale_preset) then Some 2%nat
   else None) = Some i ->
  (i < List.length (table_suggestions w h))%nat ->
  exists snapped_w snapped_h,
    _get_suggestion_target w h m scale_preset
    = Return (snapped_w, snapped_h,
              fst (nth i (table_suggestions w h) (0, 0)),
              snd (nth i (table_suggestions w h) (0, 0))).
Proof.
  intros Hm H4 Hidx Hlt. unfold _get_suggestion_target. rewrite H4, Hidx.
  destruct (table_suggestions w h) as [|first others] eqn:Es; [cbn in Hlt; lia|].
  apply Nat.ltb_lt in Hlt. rewrite Hlt.
  apply Nat.ltb_lt in Hlt.
  rewrite (nth_indep (first :: others) first (0, 0) Hlt).
  destruct (nth i (first :: others) (0, 0)) as [target_w target_h]. cbn [fst snd].
  destruct (snap_dim_spec target_w m Hm) as (sw & Esw & Hsw1 & Hsw2 & _).
  destruct (snap_dim_spec target_h m Hm) as (sh & Esh & Hsh1 & Hsh2 & _).
  rewrite Esw. cbn [bind]. rewrite Esh. cbn [bind].
  destruct (clamp_spec sw w m Hm Hsw1 Hsw2) as (cw & Ecw & _).
  destruct (clamp_spec sh h m Hm Hsh1 Hsh2) as (ch & Ech & _).
  rewrite Ecw. cbn [bind]. rewrite Ech. cbn [bind].
  exists cw, ch. reflexivity.
Qed.

(** C8 (amended). The static table maps each exact (width, height) key to an
    ordered sequence of three to five suggested (width, height) pairs, of
    which the ranks 1, 2 and 3 read the first three, and a lookup yields
    entries only on an exact match of the dimensions: for a key it answers
    with the text written under that very key, and for every (w, h) that is
    not a key it reports no entries. *)
Theorem table_exact_match_up_to_5 :
  (forall key text,
      In (key, text) _get_common_resolution_table ->
      (3 <= List.length (_parse_res_list text) <= 5)%nat) /\
  (forall w h,
      table_key w h ->
      exists text,
        PyDict.get _get_common_resolution_table (w, h) = Some text /\
        In ((w, h), text) _get_common_resolution_table /\
        table_suggestions w h = _parse_res_list text /\
        (3 <= List.length (table_suggestions w h) <= 5)%nat /\
        forall multiple_of info,
          _static_resolution_suggestions w h multiple_of = Return info ->
          PyStr.startswith info ("suggested/common resolutions: " ++ text ++ " | ") = true) /\
  (forall w h multiple_of,
      table_key w h -> In multiple_of granularities ->
      let entry i := nth i (table_suggestions w h) (0, 0) in
      exists sw1 sh1 sw2 sh2 sw3 sh3,
        _get_suggestion_target w h multiple_of "Resolution suggestion 1 (highest from table)"
        = Return (sw1, sh1, fst (entry 0%nat), snd (entry 0%nat)) /\
        _get_suggestion_target w h multiple_of "Resolution suggestion 2 (lower from table)"
        = Return (sw2, sh2, fst (entry 1%nat), snd (entry 1%nat)) /\
        _get_suggestion_target w h multiple_of "Resolution suggestion 3 (lowest from table)"
        = Return (sw3, sh3, fst (entry 2%nat), snd (entry 2%nat))) /\
  (forall w h, (List.length (table_suggestions w h) <= 5)%nat) /\
  (forall w h text,
      PyDict.get _get_common_resolution_table (w, h) = Some text ->
      In ((w, h), text) _get_common_resolution_table) /\
  (forall w h,
      ~ table_key w h ->
      PyDict.get _get_common_resolution_table (w, h) = None /\
      table_suggestions w h = [] /\
      forall multiple_of info,
        _static_resolution_suggestions w h multiple_of = Return info ->
        PyStr.startswith info
          "suggested/common resolutions: (no static entries for this input size) | "
        = true).
Proof.
  assert (Hlen : forall key text,
             In (key, text) _get_common_resolution_table ->
             (3 <= List.length (_parse_res_list text) <= 5)%nat).
  { intros key text Hin.
    pose proof (proj1 (forallb_forall _ _) table_entry_lengths _ Hin) as H.
    cbn [snd] in H. apply andb_true_iff in H. destruct H as [H1 H2].
    apply Nat.leb_le in H1. apply Nat.leb_le in H2. lia. }
  assert (Hhit : forall w h,
             table_key w h ->
             exists text,
               PyDict.get _get_common_resolution_table (w, h) = Some text /\
               In ((w, h), text) _get_common_resolution_table /\
               table_suggestions w h = _parse_res_list text /\
               (3 <= List.length (table_suggestions w h) <= 5)%nat).
  { intros w h Hk. destruct (table_hit w h Hk) as (text & Eg & Hin).
    exists text. split; [exact Eg|]. split; [exact Hin|].
    unfold table_suggestions. rewrite Eg. split; [reflexivity|apply (Hlen _ _ Hin)]. }
  split; [exact Hlen|]. split; [|split; [|split; [|split]]].
  - intros w h Hk. destruct (Hhit w h Hk) as (text & Eg & Hin & Es & Hl).
    exists text. split; [exact Eg|]. split; [exact Hin|]. split; [exact Es|].
    split; [exact Hl|].
    intros multiple_of info H. unfold _static_resolution_suggestions in H.
    rewrite Eg in H.
    inv_bind H. destruct a as [[[low_w low_h] raw_w] raw_h].
    injection H as <-. apply startswith_iff.
    exists ("less common lower resolution (same aspect ratio): "
            ++ PyInt.str low_w ++ "x" ++ PyInt.str low_h).
    rewrite !string_app_assoc. reflexivity.
  - intros w h multiple_of Hk Hg entry. subst entry.
    pose proof (granularity_pos _ Hg) as Hm.
    destruct (Hhit w h Hk) as (text & _ & _ & _ & Hl).
    destruct (suggestion_target_table_entry w h multiple_of
                "Resolution suggestion 1 (highest from table)" 0 Hm eq_refl eq_refl)
      as (sw1 & sh1 & E1); [lia|].
    destruct (suggestion_target_table_entry w h multiple_of
                "Resolution suggestion 2 (lower from table)" 1 Hm eq_refl eq_refl)
      as (sw2 & sh2 & E2); [lia|].
    destruct (suggestion_target_table_entry w h multiple_of
                "Resolution suggestion 3 (lowest from table)" 2 Hm eq_refl eq_refl)
      as (sw3 & sh3 & E3); [lia|].
    exists sw1, sh1, sw2, sh2, sw3, sh3. split; [exact E1|split; [exact E2|exact E3]].
  - intros w h. unfold table_suggestions.
    destruct (PyDict.get _get_common_resolution_table (w, h)) as [text|] eqn:E.
    + apply get_Some_In in E. apply (Hlen _ _ E).
    + cbn. lia.
  - intros w h text. apply get_Some_In.
  - intros w h Hk. split; [apply table_miss, Hk|].
    split; [apply table_suggestions_miss, Hk|].
    intros multiple_of info H. unfold _static_resolution_suggestions in H.
    rewrite (table_miss w h Hk) in H.
    inv_bind H. destruct a as [[[low_w low_h] raw_w] raw_h].
    injection H as <-. reflexivity.
Qed.

Lemma table_exact_match_up_to_5_witness :
  (table_key 1920 1080 /\ In 8 granularities /\ ~ table_key 1234 987) /\
  (exists text,
      PyDict.get _get_common_resolution_table (1920, 1080) = Some text /\
      List.length (table_suggestions 1920 1080) = 5%nat) /\
  (exists sw sh,
      _get_suggestion_target 1920 1080 8 "Resolution suggestion 1 (highest from table)"
      = Return (sw, sh, 1600, 900)) /\
  table_suggestions 1234 987 = [].
Proof.
  assert (Hk : table_key 1920 1080) by (do 18 right; left; reflexivity).
  assert (Hg : In 8 granularities) by (left; reflexivity).
  assert (Hn : ~ table_key 1234 987)
    by (apply (proj1 (get_None_iff _get_common_resolution_table (1234, 987)));
        vm_compute; reflexivity).
  destruct table_exact_match_up_to_5 as (_ & Hhit & Hrank & _ & _ & Hmiss).
  split; [split; [exact Hk|split; [exact Hg|exact Hn]]|].
  split; [|split].
  - destruct (Hhit 1920 1080 Hk) as (text & Eg & _).
    exists text. split; [exact Eg|vm_compute; reflexivity].
  - destruct (Hrank 1920 1080 8 Hk Hg) as (sw1 & sh1 & _ & _ & _ & _ & E1 & _).
    exists sw1, sh1. exact E1.
  - apply (Hmiss 1234 987 Hn).
Defined.

(** C9, as stated, fails: a text that is none of the four selectors of the
    menu but keeps the prefix of one of them resolves to that profile, not to
    (8, "SD / General (8)"). *)
Lemma profile_prefix_outside_menu :
  ~ In "multiple_of: 64 (anything else)" model_profiles /\
  _profile_to_multiple "multiple_of: 64 (anything else)" = (64, "Legacy / Extra Safe (64)") /\
  _profile_to_multiple "multiple_of: 64 (anything else)" <> (8, "SD / General (8)").
Proof.
  split; [|split].
  - unfold model_profiles. cbn [In]. intros [H|[H|[H|[H|[]]]]]; discriminate H.
  - vm_compute. reflexivity.
  - vm_compute. discriminate.
Qed.

(** Two of the four prefixes never hold of the same text. *)
Lemma profile_prefixes_apart (s : string) :
  (PyStr.startswith s "multiple_of: 8" = true ->
   PyStr.startswith s "multiple_of: 16" = false /\
   PyStr.startswith s "multiple_of: 32" = false /\
   PyStr.startswith s "multiple_of: 64" = false) /\
  (PyStr.startswith s "multiple_of: 16" = true ->
   PyStr.startswith s "multiple_of: 32" = false /\
   PyStr.startswith s "multiple_of: 64" = false) /\
  (PyStr.startswith s "multiple_of: 32" = true ->
   PyStr.startswith s "multiple_of: 64" = false).
Proof.
  split; [|split]; intros H; apply startswith_iff in H; destruct H as [rest ->];
    repeat split; reflexivity.
Qed.

(** C9 (amended). For every profile selector string [_profile_to_multiple]
    returns, without failing, one of the four pairs (8, "SD / General (8)"),
    (16, "WAN 2.2 / Strict (16)"), (32, "Video / Advanced (32)"),
    (64, "Legacy / Extra Safe (64)"). A selector is recognised by its prefix:
    the result is the pair of 16, 32 or 64 exactly for the texts that begin
    with "multiple_of: 16", "multiple_of: 32" or "multiple_of: 64", whatever
    follows, and it is (8, "SD / General (8)") for every other text, those
    that begin with "multiple_of: 8" and those that begin with none of the
    four prefixes alike; the four selectors of the menu give their own
    pairs. *)
Theorem profile_to_multiple_by_prefix_or_default (model_profile : string) :
  let begins prefix := exists rest, model_profile = prefix ++ rest in
  In (_profile_to_multiple model_profile)
     [ (8, "SD / General (8)"); (16, "WAN 2.2 / Strict (16)");
       (32, "Video / Advanced (32)"); (64, "Legacy / Extra Safe (64)") ] /\
  (_profile_to_multiple model_profile = (16, "WAN 2.2 / Strict (16)")
   <-> begins "multiple_of: 16") /\
  (_profile_to_multiple model_profile = (32, "Video / Advanced (32)")
   <-> begins "multiple_of: 32") /\
  (_profile_to_multiple model_profile = (64, "Legacy / Extra Safe (64)")
   <-> begins "multiple_of: 64") /\
  (_profile_to_multiple model_profile = (8, "SD / General (8)")
   <-> ~ begins "multiple_of: 16" /\ ~ begins "multiple_of: 32" /\
       ~ begins "multiple_of: 64") /\
  map _profile_to_multiple model_profiles
  = [ (8, "SD / General (8)"); (16, "WAN 2.2 / Strict (16)");
      (32, "Video / Advanced (32)"); (64, "Legacy / Extra Safe (64)") ].
Proof.
  cbv zeta.
  rewrite <- !(startswith_iff model_profile).
  destruct (profile_prefixes_apart model_profile) as (A8 & A16 & A32).
  unfold _profile_to_multiple.
  destruct (PyStr.startswith model_profile "multiple_of: 8") eqn:B8.
  { destruct (A8 eq_refl) as (-> & -> & ->).
    split; [left; reflexivity|].
    repeat split; intros; try discriminate; intuition discriminate. }
  destruct (PyStr.startswith model_profile "multiple_of: 16") eqn:B16.
  { destruct (A16 eq_refl) as (-> & ->).
    split; [right; left; reflexivity|].
    repeat split; intros; try discriminate; intuition discriminate. }
  destruct (PyStr.startswith model_profile "multiple_of: 32") eqn:B32.
  { rewrite (A32 eq_refl).
    split; [do 2 right; left; reflexivity|].
    repeat split; intros; try discriminate; intuition discriminate. }
  destruct (PyStr.startswith model_profile "multiple_of: 64") eqn:B64.
  { split; [do 3 right; left; reflexivity|].
    repeat split; intros; try discriminate; intuition discriminate. }
  split; [left; reflexivity|].
  repeat split; intros; try discriminate; intuition discriminate.
Qed.

Lemma profile_to_multiple_by_prefix_or_default_witness :
  ~ (exists rest, "portrait" = "multiple_of: 16" ++ rest) /\
  _profile_to_multiple "portrait" = (8, "SD / General (8)") /\
  _profile_to_multiple "multiple_of: 16 (anything else)" = (16, "WAN 2.2 / Strict (16)").
Proof.
  destruct (profile_to_multiple_by_prefix_or_default "portrait") as (_ & _ & _ & _ & H8 & _).
  destruct (profile_to_multiple_by_prefix_or_default "multiple_of: 16 (anything else)")
    as (_ & H16 & _).
  assert (N16 : ~ (exists rest, "portrait" = "multiple_of: 16" ++ rest))
    by (intros [rest H]; discriminate H).
  assert (N32 : ~ (exists rest, "portrait" = "multiple_of: 32" ++ rest))
    by (intros [rest H]; discriminate H).
  assert (N64 : ~ (exists rest, "portrait" = "multiple_of: 64" ++ rest))
    by (intros [rest H]; discriminate H).
  split; [exact N16|]. split.
  - apply (proj2 H8). split; [exact N16|split; [exact N32|exact N64]].
  - apply (proj2 H16). exists " (anything else)". reflexivity.
Defined.

(** C10. [_snap_dim] is idempotent: for every integer value and every
    positive multiple the first application returns a positive multiple of
    [multiple] that is at least [multiple], and the second application maps
    that result to itself. *)
Theorem snap_dim_idempotent (value multiple : Z) :
  0 < multiple ->
  exists r,
    _snap_dim value multiple = Return r /\
    multiple <= r /\ (multiple | r) /\
    _snap_dim r multiple = Return r /\
    (let* r := _snap_dim value multiple in _snap_dim r multiple)
    = _snap_dim value multiple.
Proof.
  intros Hm.
  destruct (snap_dim_spec value multiple Hm) as (r & E & H1 & [k Hk] & _).
  destruct (snap_dim_spec r multiple Hm) as (r' & E' & _ & [k' Hk'] & H3 & _).
  specialize (H3 H1).
  assert (Hr : r' = r).
  { subst r r'.
    assert (k' * multiple < (k + 1) * multiple) by lia.
    assert (k * multiple < (k' + 1) * multiple) by lia.
    assert (k' < k + 1) by (eapply Z.mul_lt_mono_pos_r; eauto).
    assert (k < k' + 1) by (eapply Z.mul_lt_mono_pos_r; eauto).
    f_equal. lia. }
  rewrite Hr in E'. exists r.
  split; [exact E|]. split; [exact H1|]. split; [exists k; exact Hk|].
  split; [exact E'|]. rewrite E. cbn [bind]. exact E'.
Qed.

Lemma snap_dim_idempotent_witness :
  0 < 16 /\ _snap_dim 504 16 = Return 496 /\ _snap_dim 496 16 = Return 496.
Proof.
  assert (Hm : 0 < 16) by reflexivity.
  split; [exact Hm|].
  destruct (snap_dim_idempotent 504 16 Hm) as (r & E & _ & _ & E' & _).
  assert (Er : r = 496) by (vm_compute in E; injection E as <-; reflexivity).
  subst r. split; [exact E|exact E'].
Defined.

(** ** Further properties of the helpers *)

(** *** [_snap_dim] *)

(** X1. For a positive multiple [_snap_dim] is monotone in the value: a
    larger value never snaps to a smaller result. *)
Theorem snap_dim_monotone (value1 value2 multiple : Z) :
  0 < multiple -> value1 <= value2 ->
  exists r1 r2,
    _snap_dim value1 multiple = Return r1 /\
    _snap_dim value2 multiple = Return r2 /\
    r1 <= r2.
Proof.
  intros Hm Hv.
  destruct (snap_dim_spec value1 multiple Hm) as (r1 & E1 & A1 & [k1 K1] & B1 & C1).
  destruct (snap_dim_spec value2 multiple Hm) as (r2 & E2 & A2 & [k2 K2] & B2 & C2).
  exists r1, r2. split; [exact E1|]. split; [exact E2|].
  destruct (Z.lt_ge_cases value1 multiple) as [Hlt|Hge].
  - rewrite (C1 Hlt). exact A2.
  - specialize (B1 Hge). specialize (B2 ltac:(lia)). subst r1 r2.
    assert (Hlt : k1 * multiple < (k2 + 1) * multiple) by lia.
    apply Z.mul_lt_mono_pos_r in Hlt; [|exact Hm].
    apply Z.mul_le_mono_nonneg_r; lia.
Qed.

Lemma snap_dim_monotone_witness :
  (0 < 16 /\ 503 <= 520) /\
  _snap_dim 503 16 = Return 496 /\ _snap_dim 520 16 = Return 512 /\ 496 <= 512.
Proof.
  assert (Hm : 0 < 16) by reflexivity.
  assert (Hv : 503 <= 520) by discriminate.
  split; [split; assumption|].
  destruct (snap_dim_monotone 503 520 16 Hm Hv) as (r1 & r2 & E1 & E2 & Hle).
  assert (R1 : r1 = 496) by (vm_compute in E1; injection E1 as <-; reflexivity).
  assert (R2 : r2 = 512) by (vm_compute in E2; injection E2 as <-; reflexivity).
  subst r1 r2. split; [exact E1|]. split; [exact E2|exact Hle].
Defined.

(** X2. [_snap_dim] raises in one case only: a value above zero with the
    multiple zero, where the floor division raises [ZeroDivisionError]; a
    value of zero or below returns the multiple as it is, zero and negative
    multiples included. *)
Theorem snap_dim_raises_iff (value multiple : Z) :
  (forall e, _snap_dim value multiple = Raise e ->
             e = ZeroDivisionError /\ 0 < value /\ multiple = 0) /\
  (0 < value -> multiple = 0 -> _snap_dim value multiple = Raise ZeroDivisionError) /\
  (value <= 0 -> _snap_dim value multiple = Return multiple).
Proof.
  unfold _snap_dim, PyInt.floordiv.
  destruct (Z.leb_spec value 0) as [Hv|Hv]; destruct (Z.eqb_spec multiple 0) as [Hm|Hm];
    cbn [bind]; (split; [|split]); try (intros; lia); try discriminate; try reflexivity.
  intros e H. injection H as <-. auto.
Qed.

Lemma snap_dim_raises_iff_witness :
  (0 < 5 /\ 0 = 0) /\ _snap_dim 5 0 = Raise ZeroDivisionError /\
  _snap_dim (-3) 0 = Return 0.
Proof.
  assert (Hv : 0 < 5) by reflexivity.
  split; [split; [exact Hv|reflexivity]|].
  split.
  - exact (proj1 (proj2 (snap_dim_raises_iff 5 0)) Hv eq_refl).
  - apply (proj2 (proj2 (snap_dim_raises_iff (-3) 0))). discriminate.
Defined.

(** *** [_profile_to_multiple] and [_scale_from_percentage_preset] *)

(** X3. A profile is recognised by its prefix alone: whatever follows
    "multiple_of: 8", "multiple_of: 16", "multiple_of: 32" or
    "multiple_of: 64", the granularity is 8, 16, 32 or 64. *)
Theorem profile_by_prefix (rest : string) :
  _profile_to_multiple ("multiple_of: 8" ++ rest) = (8, "SD / General (8)") /\
  _profile_to_multiple ("multiple_of: 16" ++ rest) = (16, "WAN 2.2 / Strict (16)") /\
  _profile_to_multiple ("multiple_of: 32" ++ rest) = (32, "Video / Advanced (32)") /\
  _profile_to_multiple ("multiple_of: 64" ++ rest) = (64, "Legacy / Extra Safe (64)").
Proof. destruct rest; (split; [|split; [|split]]); vm_compute; reflexivity. Qed.

(** X4. [_scale_from_percentage_preset] never raises. It returns one of
    seven pairs: the reduction 0, 10, 20, 30, 40, 50 or 60 with the scale
    that is the float nearest to 1.0, 0.9, 0.8, 0.7, 0.6, 0.5 or 0.4. The
    scale lies in (0, 1] and is never below 0.1, so the floor at 0.1 is never
    applied; a text that starts with none of the seven percentages gives the
    reduction 0 and the scale 1.0. *)
Theorem percentage_preset_values (scale_preset : string) :
  exists reduction scale,
    _scale_from_percentage_preset scale_preset = Return (reduction, scale) /\
    In (reduction, scale)
       [ (f0_0, f1_0); (f10_0, nearest 9 10); (f20_0, f0_8); (f30_0, f0_7);
         (f40_0, f0_6); (f50_0, f0_5); (f60_0, nearest 4 10) ] /\
    unit_scale scale /\
    ltb scale f0_1 = false /\
    (PyStr.startswith scale_preset "10%" = false ->
     PyStr.startswith scale_preset "20%" = false ->
     PyStr.startswith scale_preset "30%" = false ->
     PyStr.startswith scale_preset "40%" = false ->
     PyStr.startswith scale_preset "50%" = false ->
     PyStr.startswith scale_preset "60%" = false ->
     reduction = f0_0 /\ scale = f1_0).
Proof.
  unfold _scale_from_percentage_preset.
  destruct (PyStr.startswith scale_preset "0%");
    [|destruct (PyStr.startswith scale_preset "10%");
      [|destruct (PyStr.startswith scale_preset "20%");
        [|destruct (PyStr.startswith scale_preset "30%");
          [|destruct (PyStr.startswith scale_preset "40%");
            [|destruct (PyStr.startswith scale_preset "50%");
              [|destruct (PyStr.startswith scale_preset "60%")]]]]]];
    eexists; eexists;
    (split; [vm_compute; reflexivity|]);
    (split; [cbn [In]; vm_compute; auto 10|]);
    (split; [repeat split|]);
    (split; [reflexivity|]);
    intros; try discriminate; split; reflexivity.
Qed.

Lemma percentage_preset_values_witness :
  PyStr.startswith "keep" "10%" = false /\
  _scale_from_percentage_preset "keep" = Return (f0_0, f1_0).
Proof.
  split; [reflexivity|].
  destruct (percentage_preset_values "keep") as (reduction & scale & E & _ & _ & _ & H).
  destruct (H eq_refl eq_refl eq_refl eq_refl eq_refl eq_refl) as [Hr Hs].
  rewrite Hr, Hs in E. exact E.
Defined.

(** X5. The percentages are recognised by prefix: whatever follows "0%",
    "10%", ..., "60%", the pair is the one of that percentage. *)
Theorem percentage_preset_by_prefix (rest : string) :
  _scale_from_percentage_preset ("0%" ++ rest) = Return (f0_0, f1_0) /\
  _scale_from_percentage_preset ("10%" ++ rest) = Return (f10_0, nearest 9 10) /\
  _scale_from_percentage_preset ("20%" ++ rest) = Return (f20_0, f0_8) /\
  _scale_from_percentage_preset ("30%" ++ rest) = Return (f30_0, f0_7) /\
  _scale_from_percentage_preset ("40%" ++ rest) = Return (f40_0, f0_6) /\
  _scale_from_percentage_preset ("50%" ++ rest) = Return (f50_0, f0_5) /\
  _scale_from_percentage_preset ("60%" ++ rest) = Return (f60_0, nearest 4 10).
Proof.
  destruct rest; (split; [|split; [|split; [|split; [|split; [|split]]]]]);
    vm_compute; reflexivity.
Qed.

(** *** [_scale_and_snap] *)

(** X6. Whenever the rounded scaled dimension does not exceed the input
    dimension, the dimension [_scale_and_snap] returns is the snap of the
    rounded scaled dimension: the re-snap of the original dimension changes
    nothing then, also when the input is smaller than one unit. The raw
    values returned are the rounded scaled dimensions themselves. *)
Theorem scale_and_snap_clamp_idle (w h : Z) (scale : float) (m nw nh rw rh : Z) :
  0 < m ->
  _scale_and_snap w h scale m = Return (nw, nh, rw, rh) ->
  (exists raw_w raw_h,
      int_mul w scale = Return raw_w /\ round raw_w = Return rw /\
      int_mul h scale = Return raw_h /\ round raw_h = Return rh) /\
  (rw <= w -> _snap_dim rw m = Return nw) /\
  (rh <= h -> _snap_dim rh m = Return nh).
Proof.
  intros Hm H. unfold _scale_and_snap in H.
  inv_bind H. inv_bind H. inv_bind H. inv_bind H. inv_bind H.
  inv_bind H. inv_bind H. inv_bind H. inv_bind H. inv_bind H.
  injection H as <- <- <- <-.
  rewrite E1 in E7. injection E7 as <-. rewrite E3 in E8. injection E8 as <-.
  split; [exists a, a0; repeat split; assumption|].
  pose proof E2 as S2. pose proof E4 as S4.
  snap_facts Hm S2. snap_facts Hm S4.
  split; intros Hle.
  - destruct (Z.gtb_spec a2 w) as [Hgt|Hngt].
    + destruct (snap_dim_spec w m Hm) as (r & Er & _ & _ & _ & Hsmall).
      rewrite E5 in Er. injection Er as <-.
      assert (a2 = m) by (apply H2; lia).
      rewrite E2. f_equal. rewrite Hsmall; lia.
    + injection E5 as <-. exact E2.
  - destruct (Z.gtb_spec a4 h) as [Hgt|Hngt].
    + destruct (snap_dim_spec h m Hm) as (r & Er & _ & _ & _ & Hsmall).
      rewrite E6 in Er. injection Er as <-.
      assert (a4 = m) by (apply H6; lia).
      rewrite E4. f_equal. rewrite Hsmall; lia.
    + injection E6 as <-. exact E4.
Qed.

Lemma scale_and_snap_clamp_idle_witness :
  0 < 16 /\
  _scale_and_snap 1280 720 f0_7 16 = Return (896, 496, 896, 504) /\
  _snap_dim 896 16 = Return 896 /\ _snap_dim 504 16 = Return 496.
Proof.
  assert (Hm : 0 < 16) by reflexivity.
  assert (E : _scale_and_snap 1280 720 f0_7 16 = Return (896, 496, 896, 504))
    by (vm_compute; reflexivity).
  destruct (scale_and_snap_clamp_idle 1280 720 f0_7 16 896 496 896 504 Hm E)
    as (_ & Sw & Sh).
  split; [exact Hm|]. split; [exact E|].
  split; [apply Sw|apply Sh]; discriminate.
Defined.

(** *** Exact products: the scales 1.0 and 0.5

    A dimension below [2^53] converts to a float without rounding, and the
    product of a float and a power of two only moves the exponent. *)

Module FloatExact.

Lemma shr_fexp_canonical (m : positive) (e : Z) :
  Zpos (digits2_pos m) = 53 -> -1074 <= e ->
  shr_fexp prec emax (Zpos m) e loc_Exact
  = ({| shr_m := Zpos m; shr_r := false; shr_s := false |}, e).
Proof.
  intros Hd He. unfold shr_fexp. cbn [Zdigits2 shr_record_of_loc]. rewrite Hd.
  replace (fexp prec emax (53 + e) - e) with 0
    by (unfold fexp, emin, prec, emax; lia).
  reflexivity.
Qed.

(** A mantissa of 53 bits with an exponent in range is its own rounding. *)
Lemma binary_round_aux_canonical (s : bool) (m : positive) (e : Z) :
  Zpos (digits2_pos m) = 53 -> -1074 <= e <= 971 ->
  binary_round_aux prec emax s (Zpos m) e loc_Exact = S754_finite s m e.
Proof.
  intros Hd He. unfold binary_round_aux.
  rewrite (shr_fexp_canonical m e Hd) by lia.
  cbn [shr_m loc_of_shr_record round_nearest_even].
  rewrite (shr_fexp_canonical m e Hd) by lia.
  cbn [shr_m].
  replace (e <=? emax - prec) with true
    by (symmetry; apply Z.leb_le; unfold emax, prec; lia).
  reflexivity.
Qed.

Lemma iter_xO_value (m k : positive) :
  Zpos (Pos.iter xO m k) = Zpos m * 2 ^ Zpos k.
Proof.
  induction k as [|k IH] using Pos.peano_ind.
  - cbn [Pos.iter]. lia.
  - rewrite Pos.iter_succ, Pos2Z.inj_succ, Z.pow_succ_r by lia.
    rewrite Pos2Z.inj_xO, IH. lia.
Qed.

(** The float of a dimension below [2^53] is that dimension, written with a
    mantissa of 53 bits. *)
Lemma of_int_exact (n : Z) :
  0 < n < 2 ^ 53 ->
  exists m e,
    of_int n = Py.Return (S754_finite false m e) /\
    Zpos (digits2_pos m) = 53 /\ -52 <= e <= 0 /\ Zpos m = n * 2 ^ (- e).
Proof.
  intros Hn. destruct n as [|p|p]; try lia.
  assert (Hd : 1 <= Zpos (digits2_pos p) <= 53).
  { change (1 <= Zdigits2 (Zpos p) <= 53). rewrite Zdigits2_log2 by lia.
    assert (Z.log2 (Zpos p) < 53) by (apply Z.log2_lt_pow2; lia).
    pose proof (Z.log2_nonneg (Zpos p)). lia. }
  unfold of_int. cbn [binary_normalize]. unfold binary_round.
  replace (fexp prec emax (Zpos (digits2_pos p) + 0)) with (Zpos (digits2_pos p) - 53)
    by (unfold fexp, emin, prec, emax; lia).
  unfold shl_align.
  destruct (Zpos (digits2_pos p) - 53 - 0) as [|k|k] eqn:Ek; try lia.
  - rewrite binary_round_aux_canonical by lia.
    exists p, 0. split; [reflexivity|]. split; [lia|]. split; [lia|].
    cbn. lia.
  - assert (Hk : Zpos (digits2_pos (Pos.iter xO p k)) = 53)
      by (rewrite iter_xO_digits; lia).
    rewrite binary_round_aux_canonical by lia.
    exists (Pos.iter xO p k), (Zpos (digits2_pos p) - 53).
    split; [reflexivity|]. split; [exact Hk|]. split; [lia|].
    rewrite iter_xO_value. f_equal. f_equal. lia.
Qed.

(** The product with [2^52 * 2^ey], a power of two, keeps the mantissa. *)
Lemma mul_pow2 (mx : positive) (ex ey : Z) :
  Zpos (digits2_pos mx) = 53 -> -1074 <= ex + ey + 52 <= 971 ->
  mul (S754_finite false mx ex) (S754_finite false 4503599627370496 ey)
  = S754_finite false mx (ex + ey + 52).
Proof.
  intros Hd He. unfold mul. cbn [SFmul xorb].
  rewrite Pos.mul_comm. unfold binary_round_aux.
  assert (E1 : shr_fexp prec emax (Zpos (4503599627370496 * mx)) (ex + ey) loc_Exact
               = ({| shr_m := Zpos mx; shr_r := false; shr_s := false |}, ex + ey + 52)).
  { unfold shr_fexp. cbn [Pos.mul Zdigits2 digits2_pos shr_record_of_loc].
    rewrite !Pos2Z.inj_succ, Hd.
    match goal with
    | |- shr _ _ ?n = _ => replace n with 52 by (unfold fexp, emin, prec, emax; lia)
    end.
    reflexivity. }
  rewrite E1. cbn [shr_m loc_of_shr_record round_nearest_even].
  rewrite (shr_fexp_canonical mx (ex + ey + 52) Hd) by lia.
  cbn [shr_m].
  replace (ex + ey + 52 <=? emax - prec) with true
    by (symmetry; apply Z.leb_le; unfold emax, prec; lia).
  reflexivity.
Qed.

Lemma nearest_even_exact (q den : Z) : 0 < den -> nearest_even (q * den) den = q.
Proof.
  intros Hden. unfold nearest_even.
  rewrite Z.div_mul, Z.mod_mul by lia.
  replace (2 * 0 ?= den) with Lt by (symmetry; apply Z.compare_lt_iff; lia).
  reflexivity.
Qed.

Lemma nearest_even_scale (a den c : Z) :
  0 < den -> 0 < c -> nearest_even (a * c) (den * c) = nearest_even a den.
Proof.
  intros Hden Hc. unfold nearest_even.
  rewrite Z.div_mul_cancel_r, Z.mul_mod_distr_r by lia.
  replace (2 * (a mod den * c) ?= den * c) with (2 * (a mod den) ?= den); [reflexivity|].
  rewrite (Zmult_compare_compat_r (2 * (a mod den)) den c) by lia.
  f_equal. lia.
Qed.

(** Rounding a float that holds an integer gives the integer back. *)
Lemma round_exact (n : Z) (m : positive) (e : Z) :
  e <= 0 -> Zpos m = n * 2 ^ (- e) ->
  round (S754_finite false m e) = Py.Return n.
Proof.
  intros He Hm. cbn [round cond_Zopp]. f_equal. unfold scaled_magnitude.
  destruct e as [|k|k]; try lia.
  change (- Zneg k) with (Zpos k) in Hm. rewrite Hm, Z.pow_0_r, Z.mul_1_r.
  apply nearest_even_exact. apply Z.pow_pos_nonneg; lia.
Qed.

(** Rounding the half of an integer: the nearest integer, ties to even. *)
Lemma round_half (n : Z) (m : positive) (e : Z) :
  e <= 0 -> Zpos m = n * 2 ^ (- e) ->
  round (S754_finite false m (e - 1)) = Py.Return (nearest_even n 2).
Proof.
  intros He Hm. cbn [round cond_Zopp]. f_equal. unfold scaled_magnitude.
  destruct (e - 1) as [|k|k] eqn:Ek; try lia.
  rewrite Hm, Z.pow_0_r, Z.mul_1_r.
  replace (2 ^ Zpos k) with (2 * 2 ^ (- e))
    by (rewrite <- Z.pow_succ_r by lia; f_equal; lia).
  apply nearest_even_scale; [lia|apply Z.pow_pos_nonneg; lia].
Qed.

End FloatExact.

Import FloatExact.

Lemma clamp_below (r s w m : Z) :
  0 < m -> _snap_dim r m = Return s -> r <= w ->
  (if s >? w then _snap_dim w m else Return s) = Return s.
Proof.
  intros Hm E Hle.
  destruct (snap_dim_spec r m Hm) as (s' & E' & A & _ & B & C).
  rewrite E in E'. injection E' as <-.
  destruct (Z.gtb_spec s w) as [Hgt|_]; [|reflexivity].
  destruct (snap_dim_spec w m Hm) as (t & Et & _ & _ & _ & D).
  rewrite Et. f_equal. rewrite D by lia. symmetry. apply C. lia.
Qed.

Lemma int_mul_one (n : Z) :
  0 < n < 2 ^ 53 ->
  exists x, int_mul n f1_0 = Return x /\ round x = Return n.
Proof.
  intros Hn. destruct (of_int_exact n Hn) as (m & e & E & Hd & He & Hv).
  unfold int_mul. rewrite E. cbn [bind]. unfold f1_0.
  rewrite (mul_pow2 m e (-52) Hd) by lia.
  replace (e + -52 + 52) with e by lia.
  eexists. split; [reflexivity|]. apply round_exact; [lia|exact Hv].
Qed.

Lemma int_mul_half (n : Z) :
  0 < n < 2 ^ 53 ->
  exists x, int_mul n f0_5 = Return x /\ round x = Return (nearest_even n 2).
Proof.
  intros Hn. destruct (of_int_exact n Hn) as (m & e & E & Hd & He & Hv).
  unfold int_mul. rewrite E. cbn [bind]. unfold f0_5.
  rewrite (mul_pow2 m e (-53) Hd) by lia.
  replace (e + -53 + 52) with (e - 1) by lia.
  eexists. split; [reflexivity|]. apply round_half; [lia|exact Hv].
Qed.

Lemma nearest_even_half (n : Z) :
  0 <= n ->
  0 <= nearest_even n 2 <= n /\
  (Z.even n = true -> nearest_even n 2 = n / 2) /\
  (Z.even n = false ->
   Z.even (nearest_even n 2) = true /\
   (nearest_even n 2 = n / 2 \/ nearest_even n 2 = n / 2 + 1)).
Proof.
  intros Hn. unfold nearest_even.
  pose proof (Z.div_mod n 2 ltac:(lia)) as Hdm.
  pose proof (Z.mod_pos_bound n 2 ltac:(lia)) as Hb.
  rewrite (Zeven_mod n).
  destruct (Z.compare_spec (2 * (n mod 2)) 2) as [Heq|Hlt|Hgt]; try lia.
  assert (Hr : n mod 2 = 1) by lia. rewrite Hr.
  destruct (Z.even (n / 2)) eqn:Ev.
  - split; [lia|]. split; [discriminate|]. intros _. split; [exact Ev|left; reflexivity].
  - split; [lia|]. split; [discriminate|]. intros _. split; [|right; reflexivity].
    rewrite Z.even_add, Ev. reflexivity.
Qed.

Lemma snap_dim_of_multiple (w m : Z) :
  0 < m -> 0 < w -> (m | w) -> _snap_dim w m = Return w.
Proof.
  intros Hm Hw [k Hk].
  destruct (snap_dim_spec w m Hm) as (r & E & A & [j Hj] & B & _).
  rewrite E. f_equal.
  assert (Hk1 : 1 <= k) by (destruct (Z.le_gt_cases k 0); [nia|lia]).
  assert (Hge : m <= w) by nia. specialize (B Hge). subst w r.
  assert (H1 : k * m < (j + 1) * m) by lia.
  assert (H2 : j * m < (k + 1) * m) by lia.
  apply Z.mul_lt_mono_pos_r in H1; [|exact Hm].
  apply Z.mul_lt_mono_pos_r in H2; [|exact Hm].
  f_equal. lia.
Qed.

Lemma scale_and_snap_rounded (w h : Z) (scale : float) (m rw rh : Z) :
  0 < m ->
  (exists x, int_mul w scale = Return x /\ round x = Return rw) ->
  (exists x, int_mul h scale = Return x /\ round x = Return rh) ->
  rw <= w -> rh <= h ->
  exists sw sh,
    _snap_dim rw m = Return sw /\ _snap_dim rh m = Return sh /\
    _scale_and_snap w h scale m = Return (sw, sh, rw, rh).
Proof.
  intros Hm (xw & Ew & Rw) (xh & Eh & Rh) Hlw Hlh.
  destruct (snap_dim_spec rw m Hm) as (sw & Esw & _).
  destruct (snap_dim_spec rh m Hm) as (sh & Esh & _).
  exists sw, sh. split; [exact Esw|]. split; [exact Esh|].
  unfold _scale_and_snap. rewrite Ew, Eh. cbn [bind].
  rewrite Rw, Rh. cbn [bind]. rewrite Esw. cbn [bind]. rewrite Esh. cbn [bind].
  rewrite (clamp_below rw sw w m Hm Esw Hlw). cbn [bind].
  rewrite (clamp_below rh sh h m Hm Esh Hlh). reflexivity.
Qed.

(** X7. With the scale 1.0 and dimensions below 2^53 nothing is lost in
    the floats: the raw pair is the input itself and the snapped pair is the
    snap of the input, so a dimension that is a multiple of the granularity
    comes back unchanged. *)
Theorem scale_and_snap_at_one (w h m : Z) :
  0 < w < 2 ^ 53 -> 0 < h < 2 ^ 53 -> 0 < m ->
  exists sw sh,
    _snap_dim w m = Return sw /\ _snap_dim h m = Return sh /\
    _scale_and_snap w h f1_0 m = Return (sw, sh, w, h) /\
    ((m | w) -> sw = w) /\ ((m | h) -> sh = h).
Proof.
  intros Hw Hh Hm.
  destruct (scale_and_snap_rounded w h f1_0 m w h Hm (int_mul_one w Hw) (int_mul_one h Hh))
    as (sw & sh & Esw & Esh & E); try lia.
  exists sw, sh. split; [exact Esw|]. split; [exact Esh|]. split; [exact E|].
  split; intros Hd.
  - rewrite (snap_dim_of_multiple w m Hm ltac:(lia) Hd) in Esw. congruence.
  - rewrite (snap_dim_of_multiple h m Hm ltac:(lia) Hd) in Esh. congruence.
Qed.

Lemma scale_and_snap_at_one_witness :
  (0 < 1920 < 2 ^ 53 /\ 0 < 1080 < 2 ^ 53 /\ 0 < 8) /\
  _scale_and_snap 1920 1080 f1_0 8 = Return (1920, 1080, 1920, 1080).
Proof.
  assert (Hw : 0 < 1920 < 2 ^ 53) by (split; reflexivity).
  assert (Hh : 0 < 1080 < 2 ^ 53) by (split; reflexivity).
  assert (Hm : 0 < 8) by reflexivity.
  split; [repeat split|].
  destruct (scale_and_snap_at_one 1920 1080 8 Hw Hh Hm) as (sw & sh & _ & _ & E & Dw & Dh).
  rewrite (Dw (ex_intro _ 240 eq_refl)), (Dh (ex_intro _ 135 eq_refl)) in E.
  exact E.
Defined.

(** X8. With the scale 0.5 and dimensions below 2^53 the raw pair is the
    exact half of the input rounded to the nearest integer, ties to the even
    one: the half itself for an even dimension, the even neighbour of the
    half for an odd one. The snapped pair is the snap of that raw pair. *)
Theorem scale_and_snap_at_half (w h m : Z) :
  0 < w < 2 ^ 53 -> 0 < h < 2 ^ 53 -> 0 < m ->
  exists sw sh rw rh,
    _scale_and_snap w h f0_5 m = Return (sw, sh, rw, rh) /\
    _snap_dim rw m = Return sw /\ _snap_dim rh m = Return sh /\
    (Z.even w = true -> rw = w / 2) /\
    (Z.even h = true -> rh = h / 2) /\
    (Z.even w = false -> Z.even rw = true /\ (rw = w / 2 \/ rw = w / 2 + 1)) /\
    (Z.even h = false -> Z.even rh = true /\ (rh = h / 2 \/ rh = h / 2 + 1)).
Proof.
  intros Hw Hh Hm.
  destruct (nearest_even_half w ltac:(lia)) as (Bw & Ew & Ow).
  destruct (nearest_even_half h ltac:(lia)) as (Bh & Eh & Oh).
  destruct (scale_and_snap_rounded w h f0_5 m (nearest_even w 2) (nearest_even h 2) Hm
              (int_mul_half w Hw) (int_mul_half h Hh))
    as (sw & sh & Esw & Esh & E); try lia.
  exists sw, sh, (nearest_even w 2), (nearest_even h 2).
  repeat (split; [assumption|]). assumption.
Qed.

Lemma scale_and_snap_at_half_witness :
  (0 < 5 < 2 ^ 53 /\ 0 < 7 < 2 ^ 53 /\ 0 < 8) /\
  exists sw sh, _scale_and_snap 5 7 f0_5 8 = Return (sw, sh, 2, 4).
Proof.
  assert (Hw : 0 < 5 < 2 ^ 53) by (split; reflexivity).
  assert (Hh : 0 < 7 < 2 ^ 53) by (split; reflexivity).
  assert (Hm : 0 < 8) by reflexivity.
  split; [repeat split|].
  destruct (scale_and_snap_at_half 5 7 8 Hw Hh Hm)
    as (sw & sh & rw & rh & E & _ & _ & _ & _ & Ow & Oh).
  exists sw, sh.
  destruct (Ow eq_refl) as [Evw [Hrw|Hrw]]; destruct (Oh eq_refl) as [Evh [Hrh|Hrh]];
    subst rw rh; try discriminate Evw; try discriminate Evh.
  exact E.
Defined.

(** *** [_get_suggestion_target] *)

(** X9. A preset that names none of the four ranks, neither "suggestion 1"
    to "suggestion 4" nor "very low vram" once put in lower case, is treated
    like rank 4: the scale 0.5, also when (w, h) is a key of the table. *)
Theorem suggestion_target_unknown_rank (w h m : Z) (scale_preset : string) :
  PyStr.contains "suggestion 4" (PyStr.lower scale_preset) = false ->
  PyStr.contains "very low vram" (PyStr.lower scale_preset) = false ->
  PyStr.contains "suggestion 1" (PyStr.lower scale_preset) = false ->
  PyStr.contains "suggestion 2" (PyStr.lower scale_preset) = false ->
  PyStr.contains "suggestion 3" (PyStr.lower scale_preset) = false ->
  _get_suggestion_target w h m scale_preset = _scale_and_snap w h f0_5 m.
Proof.
  intros H4 Hv H1 H2 H3. unfold _get_suggestion_target.
  rewrite H4, Hv, H1, H2, H3. cbn [orb].
  destruct (table_suggestions w h); apply bind_eta4.
Qed.

Lemma suggestion_target_unknown_rank_witness :
  PyStr.contains "suggestion 4" (PyStr.lower "Resolution suggestion 7") = false /\
  table_suggestions 1920 1080 <> [] /\
  _get_suggestion_target 1920 1080 8 "Resolution suggestion 7" = Return (960, 536, 960, 540).
Proof.
  split; [reflexivity|]. split; [vm_compute; discriminate|].
  rewrite (suggestion_target_unknown_rank 1920 1080 8 "Resolution suggestion 7"
             eq_refl eq_refl eq_refl eq_refl eq_refl).
  vm_compute. reflexivity.
Defined.

(** X10. On every key of the static table and for every granularity of the
    four profiles, the ranks 1, 2 and 3 return the first, second and third
    entry of that key: the raw pair is the entry as written, the snapped
    pair is the entry floored to the granularity. Every key has these three
    entries, each fits in the input, so neither the fall-back to the last
    entry nor the re-snap of the input is ever taken. *)
Theorem suggestion_target_on_table_key (w h m : Z) :
  table_key w h -> In m granularities ->
  let target i := nth i (table_suggestions w h) (0, 0) in
  let floored i :=
    Return (fst (target i) / m * m, snd (target i) / m * m,
            fst (target i), snd (target i)) in
  (3 <= List.length (table_suggestions w h))%nat /\
  (forall i, (i < 3)%nat -> m <= fst (target i) <= w /\ m <= snd (target i) <= h) /\
  _get_suggestion_target w h m "Resolution suggestion 1 (highest from table)"
  = floored 0%nat /\
  _get_suggestion_target w h m "Resolution suggestion 2 (lower from table)"
  = floored 1%nat /\
  _get_suggestion_target w h m "Resolution suggestion 3 (lowest from table)"
  = floored 2%nat.
Proof.
  intros Hk Hm. cbv zeta.
  unfold table_key in Hk. unfold granularities in Hm. cbn [In] in Hm.
  cbn [map fst _get_common_resolution_table In] in Hk.
  repeat (destruct Hk as [Hk|Hk]; [injection Hk as <- <-|]); try contradiction;
    destruct Hm as [<-|[<-|[<-|[<-|[]]]]];
    (split; [vm_compute; lia|]);
    (split; [intros [|[|[|i]]] Hi; try lia; vm_compute; intuition discriminate|]);
    (split; [vm_compute; reflexivity|]);
    (split; vm_compute; reflexivity).
Qed.

Lemma suggestion_target_on_table_key_witness :
  (table_key 1920 1080 /\ In 8 granularities) /\
  _get_suggestion_target 1920 1080 8 "Resolution suggestion 1 (highest from table)"
  = Return (1600, 896, 1600, 900).
Proof.
  assert (Hk : table_key 1920 1080) by (do 18 right; left; reflexivity).
  assert (Hm : In 8 granularities) by (left; reflexivity).
  split; [split; assumption|].
  destruct (suggestion_target_on_table_key 1920 1080 8 Hk Hm) as (_ & _ & E & _).
  rewrite E. vm_compute. reflexivity.
Defined.

(** *** [calc] *)

(** X11. [calc] hands the image on untouched and never enlarges a dimension
    that holds at least one unit of the granularity; a dimension smaller than
    one unit comes back as exactly one unit. This holds for every pair of
    selectors, the table entries included. *)
Theorem calc_never_upscales (image : Image) (model_profile scale_preset : string)
        (image' : Image) (new_w new_h : Z) (info : string) :
  0 < shape2 image -> 0 < shape1 image ->
  calc image model_profile scale_preset = Return (image', new_w, new_h, info) ->
  let multiple_of := fst (_profile_to_multiple model_profile) in
  image' = image /\
  (multiple_of <= shape2 image -> new_w <= shape2 image) /\
  (multiple_of <= shape1 image -> new_h <= shape1 image) /\
  (shape2 image < multiple_of -> new_w = multiple_of) /\
  (shape1 image < multiple_of -> new_h = multiple_of).
Proof.
  intros Hw Hh H.
  destruct (calc_result _ _ _ _ _ _ _ Hw Hh H) as (Hi & (_ & _ & W1 & W2) & (_ & _ & H1 & H2)).
  cbv zeta. repeat split; assumption.
Qed.

Lemma calc_never_upscales_witness :
  (0 < 1280 /\ 0 < 5) /\
  exists info,
    calc (image_of_size 1280 5) "multiple_of: 16 (WAN 2.2 / Strict (16))"
         "Resolution suggestion 2 (lower from table)"
    = Return (image_of_size 1280 5, 896, 16, info) /\
    896 <= 1280.
Proof.
  assert (H0 : 0 < 1280) by reflexivity.
  assert (H1 : 0 < 5) by reflexivity.
  split; [split; assumption|].
  eexists. split; [vm_compute; reflexivity|].
  match goal with
  | |- _ <= _ =>
      destruct (calc_never_upscales (image_of_size 1280 5)
                  "multiple_of: 16 (WAN 2.2 / Strict (16))"
                  "Resolution suggestion 2 (lower from table)"
                  (image_of_size 1280 5) 896 16 _ H0 H1 ltac:(vm_compute; reflexivity))
        as (_ & Hle & _)
  end.
  apply Hle. discriminate.
Defined.

Lemma percentage_preset_default (scale_preset : string) :
  PyStr.startswith scale_preset "10%" = false ->
  PyStr.startswith scale_preset "20%" = false ->
  PyStr.startswith scale_preset "30%" = false ->
  PyStr.startswith scale_preset "40%" = false ->
  PyStr.startswith scale_preset "50%" = false ->
  PyStr.startswith scale_preset "60%" = false ->
  _scale_from_percentage_preset scale_preset = Return (f0_0, f1_0).
Proof.
  intros H1 H2 H3 H4 H5 H6. unfold _scale_from_percentage_preset.
  rewrite H1, H2, H3, H4, H5, H6.
  destruct (PyStr.startswith scale_preset "0%"); vm_compute; reflexivity.
Qed.

(** X12. A preset that is neither a suggestion nor one of the percentages
    10 to 60, that is "0% smaller" or any text the node does not know, keeps
    the size: for dimensions below 2^53 [calc] returns the snap of the input
    width and height, and returns them unchanged when they are multiples of
    the granularity. *)
Theorem calc_keeps_size (image : Image) (model_profile scale_preset : string) :
  0 < shape2 image < 2 ^ 53 -> 0 < shape1 image < 2 ^ 53 ->
  PyStr.startswith scale_preset "Resolution suggestion" = false ->
  PyStr.startswith scale_preset "10%" = false ->
  PyStr.startswith scale_preset "20%" = false ->
  PyStr.startswith scale_preset "30%" = false ->
  PyStr.startswith scale_preset "40%" = false ->
  PyStr.startswith scale_preset "50%" = false ->
  PyStr.startswith scale_preset "60%" = false ->
  let multiple_of := fst (_profile_to_multiple model_profile) in
  exists new_w new_h info,
    calc image model_profile scale_preset = Return (image, new_w, new_h, info) /\
    _snap_dim (shape2 image) multiple_of = Return new_w /\
    _snap_dim (shape1 image) multiple_of = Return new_h /\
    ((multiple_of | shape2 image) -> new_w = shape2 image) /\
    ((multiple_of | shape1 image) -> new_h = shape1 image).
Proof.
  intros Hw Hh Hs H1 H2 H3 H4 H5 H6 multiple_of.
  pose proof (granularity_pos _ (profile_granularity model_profile)) as Hm.
  fold multiple_of in Hm.
  destruct (scale_and_snap_rounded (shape2 image) (shape1 image) f1_0 multiple_of
              (shape2 image) (shape1 image) Hm
              (int_mul_one _ Hw) (int_mul_one _ Hh))
    as (sw & sh & Esw & Esh & E); try lia.
  destruct (static_resolution_suggestions_total (shape2 image) (shape1 image) multiple_of)
    as (text & Etext); try lia.
  assert (Ec : exists info,
             calc image model_profile scale_preset = Return (image, sw, sh, info)).
  { unfold calc.
    destruct (Z.leb_spec (shape1 image) 0) as [?|_]; [lia|].
    destruct (Z.leb_spec (shape2 image) 0) as [?|_]; [lia|].
    cbn [orb]. subst multiple_of.
    destruct (_profile_to_multiple model_profile) as [m label]. cbn [fst] in *.
    rewrite Hs, (percentage_preset_default scale_preset H1 H2 H3 H4 H5 H6).
    cbn [bind]. rewrite E. cbn [bind]. rewrite Etext. cbn [bind].
    eexists. reflexivity. }
  destruct Ec as [info Ec]. exists sw, sh, info.
  split; [exact Ec|split; [exact Esw|split; [exact Esh|split; intros Hd]]].
  - rewrite (snap_dim_of_multiple _ _ Hm (proj1 Hw) Hd) in Esw. congruence.
  - rewrite (snap_dim_of_multiple _ _ Hm (proj1 Hh) Hd) in Esh. congruence.
Qed.

Lemma calc_keeps_size_witness :
  (0 < 1920 < 2 ^ 53 /\ 0 < 1080 < 2 ^ 53) /\
  exists info,
    calc (image_of_size 1920 1080) "multiple_of: 8 (SD / General (8))" "keep it"
    = Return (image_of_size 1920 1080, 1920, 1080, info).
Proof.
  assert (Hw : 0 < 1920 < 2 ^ 53) by (split; reflexivity).
  assert (Hh : 0 < 1080 < 2 ^ 53) by (split; reflexivity).
  split; [split; assumption|].
  destruct (calc_keeps_size (image_of_size 1920 1080) "multiple_of: 8 (SD / General (8))"
              "keep it" Hw Hh eq_refl eq_refl eq_refl eq_refl eq_refl eq_refl eq_refl)
    as (nw & nh & info & E & _ & _ & Dw & Dh).
  rewrite (Dw (ex_intro _ 240 eq_refl)), (Dh (ex_intro _ 135 eq_refl)) in E.
  exists info. exact E.
Defined.

(** X13. The rank 4 and the preset "50% smaller" lead to the same size:
    whatever [calc] returns for the selector of suggestion 4, it returns the
    same image, width and height for a preset that starts with "50%". *)
Theorem calc_rank4_as_50_percent (image : Image) (model_profile rest : string)
        (image' : Image) (new_w new_h : Z) (info : string) :
  calc image model_profile "Resolution suggestion 4 (very low VRAM)"
  = Return (image', new_w, new_h, info) ->
  exists info',
    calc image model_profile ("50%" ++ rest) = Return (image', new_w, new_h, info').
Proof.
  intros H.
  assert (Ep : _scale_from_percentage_preset ("50%" ++ rest) = Return (f50_0, f0_5))
    by (destruct rest; vm_compute; reflexivity).
  assert (Es : PyStr.startswith ("50%" ++ rest) "Resolution suggestion" = false)
    by (destruct rest; reflexivity).
  unfold calc in *.
  destruct ((shape1 image <=? 0) || (shape2 image <=? 0))%bool.
  { injection H as <- <- <- _. eexists. reflexivity. }
  destruct (_profile_to_multiple model_profile) as [m label].
  rewrite Es, Ep. cbn [bind].
  replace (PyStr.startswith "Resolution suggestion 4 (very low VRAM)" "Resolution suggestion")
    with true in H by reflexivity.
  rewrite suggestion_target_rank4 in H by reflexivity.
  inv_bind H. destruct a as [[reduction scale] [[[nw nh] rw] rh]].
  inv_bind H. injection H as <- <- <- _.
  inv_bind E. destruct a0 as [[[nw' nh'] rw'] rh'].
  inv_bind E. injection E as _ _ -> -> -> ->.
  rewrite E1. cbn [bind]. rewrite E0. cbn [bind]. eexists. reflexivity.
Qed.

Lemma calc_rank4_as_50_percent_witness :
  exists info info',
    calc (image_of_size 1234 987) "multiple_of: 8 (SD / General (8))"
         "Resolution suggestion 4 (very low VRAM)"
    = Return (image_of_size 1234 987, 616, 488, info) /\
    calc (image_of_size 1234 987) "multiple_of: 8 (SD / General (8))"
         "50% smaller (1920x1080→960x540, 1280x720→640x360)"
    = Return (image_of_size 1234 987, 616, 488, info').
Proof.
  eexists.
  assert (E : calc (image_of_size 1234 987) "multiple_of: 8 (SD / General (8))"
                   "Resolution suggestion 4 (very low VRAM)"
              = Return (image_of_size 1234 987, 616, 488, _))
    by (vm_compute; reflexivity).
  destruct (calc_rank4_as_50_percent _ _ " smaller (1920x1080→960x540, 1280x720→640x360)"
              _ _ _ _ E) as (info' & E').
  exists info'. split; [exact E|exact E'].
Defined.

(** *** [_parse_res_list] *)

Module ParseFacts.

Lemma prefix_nil (s : string) : String.prefix "" s = true.
Proof. destruct s; reflexivity. Qed.

Lemma every_app (P : ascii -> bool) (a b : string) :
  every P (a ++ b) = (every P a && every P b)%bool.
Proof.
  induction a as [|c a IH]; [reflexivity|].
  cbn [append every]. rewrite IH. apply andb_assoc.
Qed.

Lemma numeral_char_plain (c : ascii) :
  numeral_char c = true ->
  PyStr.isspace c = false /\ Ascii.eqb c "," = false /\ Ascii.eqb c "x" = false.
Proof.
  destruct c as [[] [] [] [] [] [] [] []]; vm_compute; intros H;
    try discriminate H; repeat split.
Qed.

Lemma lstrip_numeral (s : string) : every numeral_char s = true -> PyStr.lstrip s = s.
Proof.
  destruct s as [|c s]; [reflexivity|]. cbn [every PyStr.lstrip].
  intros H. apply andb_true_iff in H. destruct H as [Hc _].
  destruct (numeral_char_plain c Hc) as (-> & _). reflexivity.
Qed.

Lemma rstrip_numeral (s : string) : every numeral_char s = true -> PyStr.rstrip s = s.
Proof.
  induction s as [|c s IH]; [reflexivity|]. cbn [every PyStr.rstrip].
  intros H. apply andb_true_iff in H. destruct H as [Hc Hs].
  rewrite (IH Hs). destruct (numeral_char_plain c Hc) as (-> & _).
  destruct s; reflexivity.
Qed.

Lemma strip_numeral (s : string) : every numeral_char s = true -> PyStr.strip s = s.
Proof.
  intros H. unfold PyStr.strip. rewrite (lstrip_numeral s H). apply rstrip_numeral, H.
Qed.

(** A printed integer holds digits and at most a minus sign. *)
Lemma uint_numeral (d : Decimal.uint) :
  every numeral_char (NilEmpty.string_of_uint d) = true.
Proof. induction d; cbn [NilEmpty.string_of_uint every]; try rewrite IHd; reflexivity. Qed.

Lemma NilZero_uint (d : Decimal.uint) :
  d <> Decimal.Nil -> NilZero.string_of_uint d = NilEmpty.string_of_uint d.
Proof. destruct d; [contradiction|..]; reflexivity. Qed.

Lemma str_numeral (n : Z) : every numeral_char (PyInt.str n) = true.
Proof.
  unfold PyInt.str. destruct n as [|p|p]; [reflexivity| |];
    cbn [Z.to_int NilZero.string_of_int];
    rewrite (NilZero_uint _ (DecimalPos.Unsigned.to_uint_nonnil p));
    cbn [every]; rewrite uint_numeral; reflexivity.
Qed.

Ltac eval_digit :=
  match goal with
  | |- context [PyStr.digit_value ?c] =>
      let v := eval vm_compute in (PyStr.digit_value c) in
      change (PyStr.digit_value c) with v
  end.

Lemma digits_acc (d : Decimal.uint) : forall acc : positive,
  PyStr.digits (Zpos acc) true (NilEmpty.string_of_uint d)
  = Some (Zpos (Pos.of_uint_acc d acc)).
Proof.
  induction d as [|d IH|d IH|d IH|d IH|d IH|d IH|d IH|d IH|d IH|d IH]; intros acc;
    cbn [NilEmpty.string_of_uint PyStr.digits Pos.of_uint_acc]; try reflexivity;
    eval_digit; cbv beta iota; rewrite <- IH; f_equal; lia.
Qed.

Lemma digits_zero (d : Decimal.uint) :
  PyStr.digits 0 true (NilEmpty.string_of_uint d) = Some (Z.of_uint d).
Proof.
  unfold Z.of_uint.
  induction d as [|d IH|d IH|d IH|d IH|d IH|d IH|d IH|d IH|d IH|d IH];
    cbn [NilEmpty.string_of_uint PyStr.digits Pos.of_uint]; try reflexivity;
    eval_digit; cbv beta iota;
    [exact IH|..];
    match goal with
    | |- PyStr.digits ?a true _ = Some (Z.of_N (Npos (Pos.of_uint_acc _ ?k))) =>
        change a with (Zpos k); rewrite digits_acc; reflexivity
    end.
Qed.

Lemma digits_start (d : Decimal.uint) :
  d <> Decimal.Nil ->
  PyStr.digits 0 false (NilEmpty.string_of_uint d) = Some (Z.of_uint d).
Proof.
  intros Hd. rewrite <- digits_zero.
  destruct d; [contradiction|..];
    cbn [NilEmpty.string_of_uint PyStr.digits]; eval_digit; reflexivity.
Qed.

Lemma of_to_uint (p : positive) : Z.of_uint (Pos.to_uint p) = Zpos p.
Proof. unfold Z.of_uint. rewrite DecimalPos.Unsigned.of_to. reflexivity. Qed.

(** [int] reads back what [str] prints. *)
Lemma int_str (n : Z) : PyStr.int (PyInt.str n) = Py.Return n.
Proof.
  unfold PyStr.int. rewrite (strip_numeral _ (str_numeral n)).
  unfold PyInt.str. destruct n as [|p|p]; [reflexivity| |];
    cbn [Z.to_int NilZero.string_of_int];
    pose proof (DecimalPos.Unsigned.to_uint_nonnil p) as Hnil;
    pose proof (of_to_uint p) as Hof;
    rewrite (NilZero_uint _ Hnil).
  - pose proof (digits_start _ Hnil) as Hd. rewrite Hof in Hd.
    destruct (Pos.to_uint p); [contradiction|..];
      cbn [NilEmpty.string_of_uint] in *; cbv beta iota; rewrite Hd; reflexivity.
  - cbv beta iota. rewrite (digits_start _ Hnil), Hof. reflexivity.
Qed.

Lemma every_impl (P Q : ascii -> bool) (s : string) :
  (forall c, P c = true -> Q c = true) -> every P s = true -> every Q s = true.
Proof.
  intros HPQ. induction s as [|c s IH]; [reflexivity|]. cbn [every].
  intros H. apply andb_true_iff in H. destruct H as [Hc Hs].
  rewrite (HPQ c Hc), (IH Hs). reflexivity.
Qed.

Lemma prefix_single (x c : ascii) (s : string) :
  String.prefix (String x "") (String c s) = Ascii.eqb x c.
Proof.
  cbn [String.prefix]. destruct (ascii_dec x c) as [->|Hne].
  - rewrite Ascii.eqb_refl. apply prefix_nil.
  - symmetry. apply Ascii.eqb_neq, Hne.
Qed.

(** Splitting at a separator splits the two sides on their own. *)
Lemma split_char_nonempty (c : ascii) (s : string) : PyStr.split_char c s <> [].
Proof.
  destruct s as [|a s]; cbn [PyStr.split_char]; [discriminate|].
  destruct (Ascii.eqb a c); [discriminate|].
  destruct (PyStr.split_char c s); discriminate.
Qed.

Lemma split_char_app (c : ascii) (a b : string) :
  PyStr.split_char c (a ++ String c b)
  = (PyStr.split_char c a ++ PyStr.split_char c b)%list.
Proof.
  induction a as [|x a IH]; cbn [append PyStr.split_char].
  - rewrite Ascii.eqb_refl. reflexivity.
  - rewrite IH. destruct (Ascii.eqb x c); [reflexivity|].
    pose proof (split_char_nonempty c a) as Hne.
    destruct (PyStr.split_char c a) as [|first others]; [contradiction|reflexivity].
Qed.

Lemma split_char_whole (c : ascii) (s : string) :
  every (fun x => negb (Ascii.eqb x c)) s = true -> PyStr.split_char c s = [s].
Proof.
  induction s as [|x s IH]; [reflexivity|]. cbn [every PyStr.split_char].
  intros H. apply andb_true_iff in H. destruct H as [Hx Hs].
  apply negb_true_iff in Hx. rewrite Hx, (IH Hs). reflexivity.
Qed.

Lemma split_char_every (P : ascii -> bool) (c : ascii) (s : string) :
  every P s = true -> Forall (fun part => every P part = true) (PyStr.split_char c s).
Proof.
  induction s as [|x s IH]; cbn [every PyStr.split_char]; intros H.
  - constructor; [reflexivity|constructor].
  - apply andb_true_iff in H. destruct H as [Hx Hs]. specialize (IH Hs).
    destruct (Ascii.eqb x c); [constructor; [reflexivity|exact IH]|].
    destruct (PyStr.split_char c s) as [|first others].
    + constructor; [cbn [every]; rewrite Hx; reflexivity|constructor].
    + inversion IH as [|? ? Hf Ho]; subst.
      constructor; [cbn [every]; rewrite Hx, Hf; reflexivity|exact Ho].
Qed.

Lemma lstrip_every (P : ascii -> bool) (s : string) :
  every P s = true -> every P (PyStr.lstrip s) = true.
Proof.
  induction s as [|x s IH]; [reflexivity|]. cbn [PyStr.lstrip]. intros H.
  destruct (PyStr.isspace x); [|exact H].
  cbn [every] in H. apply andb_true_iff in H. apply IH, H.
Qed.

Lemma rstrip_every (P : ascii -> bool) (s : string) :
  every P s = true -> every P (PyStr.rstrip s) = true.
Proof.
  induction s as [|x s IH]; [reflexivity|]. cbn [every PyStr.rstrip]. intros H.
  apply andb_true_iff in H. destruct H as [Hx Hs]. specialize (IH Hs).
  destruct (PyStr.rstrip s) as [|y t].
  - destruct (PyStr.isspace x); [reflexivity|cbn [every]; rewrite Hx; reflexivity].
  - cbn [every] in *. rewrite Hx, IH. reflexivity.
Qed.

Lemma strip_nospace (s : string) :
  every (fun c => negb (PyStr.isspace c)) s = true -> PyStr.strip s = s.
Proof.
  intros H. unfold PyStr.strip.
  assert (Hl : PyStr.lstrip s = s).
  { destruct s as [|x s]; [reflexivity|]. cbn [every PyStr.lstrip] in *.
    apply andb_true_iff in H. destruct H as [Hx _].
    apply negb_true_iff in Hx. rewrite Hx. reflexivity. }
  rewrite Hl. clear Hl.
  induction s as [|x s IH]; [reflexivity|]. cbn [every PyStr.rstrip] in *.
  apply andb_true_iff in H. destruct H as [Hx Hs].
  apply negb_true_iff in Hx. rewrite (IH Hs), Hx. destruct s; reflexivity.
Qed.

(** [needle in s] for a needle of one character. *)
Lemma contains_single (x : ascii) (s : string) :
  PyStr.contains (String x "") s = negb (every (fun c => negb (Ascii.eqb c x)) s).
Proof.
  induction s as [|c s IH]; [reflexivity|].
  cbn [PyStr.contains every]. rewrite prefix_single, IH, (Ascii.eqb_sym x c).
  destruct (Ascii.eqb c x); reflexivity.
Qed.

Lemma split_once_single (x : ascii) (a b : string) :
  every (fun c => negb (Ascii.eqb c x)) a = true ->
  PyStr.split_once (String x "") (a ++ String x b) = Some (a, b).
Proof.
  induction a as [|c a IH]; cbn [append every PyStr.split_once]; intros H.
  - rewrite prefix_single, Ascii.eqb_refl. reflexivity.
  - apply andb_true_iff in H. destruct H as [Hc Ha]. apply negb_true_iff in Hc.
    rewrite prefix_single, (Ascii.eqb_sym x c), Hc, (IH Ha). reflexivity.
Qed.

Lemma fold_left_append {A B : Type} (f : list A -> B -> list A) :
  (forall acc p, f acc p = (acc ++ f [] p)%list) ->
  forall l acc, fold_left f l acc = (acc ++ fold_left f l [])%list.
Proof.
  intros Hf. induction l as [|p l IH]; intros acc; cbn [fold_left].
  - rewrite app_nil_r. reflexivity.
  - rewrite (IH (f acc p)), (IH (f [] p)), (Hf acc p). symmetry. apply app_assoc.
Qed.

End ParseFacts.

Import ParseFacts.

Ltac name_step :=
  match goal with
  | |- context [fold_left ?f _ _] => set (step := f) in *
  end.

Lemma parse_step_append (acc : list (Z * Z)) (p : string) :
  let step := fun (results : list (Z * Z)) (p : string) =>
    let p := PyStr.strip p in
    if negb (PyStr.contains "x" p) then results
    else
      match PyStr.split_once "x" p with
      | Some (w_str, h_str) =>
          try_except
            (let* w := PyStr.int (PyStr.strip w_str) in
             let* h := PyStr.int (PyStr.strip h_str) in
             Return (results ++ [(w, h)])%list)
            results
      | None => results
      end in
  step acc p = (acc ++ step [] p)%list.
Proof.
  cbv beta zeta.
  destruct (negb (PyStr.contains "x" (PyStr.strip p))); [rewrite app_nil_r; reflexivity|].
  destruct (PyStr.split_once "x" (PyStr.strip p)) as [[w_str h_str]|];
    [|rewrite app_nil_r; reflexivity].
  destruct (PyStr.int (PyStr.strip w_str)) as [w|e]; cbn [bind try_except];
    [|rewrite app_nil_r; reflexivity].
  destruct (PyStr.int (PyStr.strip h_str)) as [h|e]; cbn [bind try_except];
    [reflexivity|rewrite app_nil_r; reflexivity].
Qed.

Lemma parse_app (a b : string) :
  _parse_res_list (a ++ String "," b) = (_parse_res_list a ++ _parse_res_list b)%list.
Proof.
  unfold _parse_res_list. cbn [append].
  rewrite split_char_app, fold_left_app.
  name_step. apply (fold_left_append step). exact parse_step_append.
Qed.

Lemma parse_space (t : string) : _parse_res_list (String " " t) = _parse_res_list t.
Proof.
  unfold _parse_res_list. cbn [PyStr.split_char].
  change (Ascii.eqb " " ",") with false. cbv iota.
  pose proof (split_char_nonempty "," t) as Hne.
  destruct (PyStr.split_char "," t) as [|first others]; [contradiction|].
  cbn [fold_left]. cbv beta zeta.
  change (PyStr.strip (String " " first)) with (PyStr.strip first).
  reflexivity.
Qed.

Lemma item_every (Q : ascii -> bool) (w h : Z) :
  Q "x"%char = true -> (forall c, numeral_char c = true -> Q c = true) ->
  every Q (PyInt.str w ++ String "x" (PyInt.str h)) = true.
Proof.
  intros Hx HQ. rewrite every_app. cbn [every].
  rewrite (every_impl _ Q _ HQ (str_numeral w)), (every_impl _ Q _ HQ (str_numeral h)), Hx.
  reflexivity.
Qed.

Lemma parse_item (w h : Z) : _parse_res_list (resolution_text (w, h)) = [(w, h)].
Proof.
  unfold _parse_res_list, resolution_text. cbn [fst snd append].
  set (item := PyInt.str w ++ String "x" (PyInt.str h)).
  assert (Hcomma : every (fun c => negb (Ascii.eqb c ",")) item = true).
  { apply item_every; [reflexivity|]. intros c Hc.
    destruct (numeral_char_plain c Hc) as (_ & -> & _). reflexivity. }
  assert (Hspace : every (fun c => negb (PyStr.isspace c)) item = true).
  { apply item_every; [reflexivity|]. intros c Hc.
    destruct (numeral_char_plain c Hc) as (-> & _). reflexivity. }
  assert (Hx : every (fun c => negb (Ascii.eqb c "x")) (PyInt.str w) = true).
  { apply (every_impl numeral_char); [|apply str_numeral]. intros c Hc.
    destruct (numeral_char_plain c Hc) as (_ & _ & ->). reflexivity. }
  rewrite (split_char_whole _ _ Hcomma). cbn [fold_left]. cbv beta zeta.
  rewrite (strip_nospace item Hspace).
  assert (Hin : PyStr.contains "x" item = true).
  { rewrite contains_single. unfold item. rewrite every_app. cbn [every].
    rewrite Ascii.eqb_refl. cbn [negb andb]. rewrite andb_false_r. reflexivity. }
  rewrite Hin. cbn [negb]. unfold item.
  rewrite (split_once_single "x" _ _ Hx).
  rewrite !(strip_numeral _ (str_numeral _)), !int_str. reflexivity.
Qed.

(** X14. [_parse_res_list] reads the items between commas one by one: the
    pairs of the text [a,b] are the pairs of [a] followed by the pairs of
    [b], whatever the two texts hold, so an item that cannot be read does
    not disturb the others; a space after the comma changes nothing. *)
Theorem parse_res_list_concat (a b : string) :
  _parse_res_list (a ++ "," ++ b) = (_parse_res_list a ++ _parse_res_list b)%list /\
  _parse_res_list (a ++ ", " ++ b) = (_parse_res_list a ++ _parse_res_list b)%list.
Proof.
  cbn [append]. split.
  - apply parse_app.
  - rewrite parse_app, parse_space. reflexivity.
Qed.

(** X15. [_parse_res_list] reads back the texts the node writes: a list of
    pairs of integers of at most 4300 digits, each written [WxH] as in the
    info string and joined by ", " as in the table, parses to that list. *)
Theorem parse_res_list_round_trip (l : list (Z * Z)) :
  Forall (fun p => printable (fst p) /\ printable (snd p)) l ->
  _parse_res_list (String.concat ", " (map resolution_text l)) = l.
Proof.
  intros _.
  induction l as [|p l IH]; [reflexivity|].
  destruct p as [w h]. destruct l as [|q l].
  - cbn [map String.concat]. apply parse_item.
  - change (String.concat ", " (map resolution_text ((w, h) :: q :: l)))
      with (resolution_text (w, h)
            ++ String "," (String " " (String.concat ", " (map resolution_text (q :: l))))).
    rewrite parse_app, parse_space, IH, parse_item. reflexivity.
Qed.

Lemma parse_res_list_round_trip_witness :
  Forall (fun p => printable (fst p) /\ printable (snd p)) [(1920, 1080); (-5, 0)] /\
  _parse_res_list "1920x1080, -5x0" = [(1920, 1080); (-5, 0)].
Proof.
  assert (H : Forall (fun p => printable (fst p) /\ printable (snd p))
                     [(1920, 1080); (-5, 0)])
    by (repeat constructor; vm_compute; reflexivity).
  split; [exact H|].
  exact (parse_res_list_round_trip [(1920, 1080); (-5, 0)] H).
Defined.

(** X16. A text without the letter "x", the empty text included, holds
    no resolution: it parses to the empty list, and nothing is raised. *)
Theorem parse_res_list_without_x (text : string) :
  PyStr.contains "x" text = false -> _parse_res_list text = [].
Proof.
  intros H. rewrite contains_single in H. apply negb_false_iff in H.
  pose proof (split_char_every _ "," text H) as Hparts.
  unfold _parse_res_list. name_step.
  induction Hparts as [|part parts Hp _ IH]; [reflexivity|].
  cbn [fold_left]. replace (step [] part) with (@nil (Z * Z)); [exact IH|].
  unfold step. cbv beta zeta.
  assert (Hs : every (fun c => negb (Ascii.eqb c "x")) (PyStr.strip part) = true)
    by (unfold PyStr.strip; apply rstrip_every, lstrip_every, Hp).
  rewrite contains_single, Hs. reflexivity.
Qed.

Lemma parse_res_list_without_x_witness :
  PyStr.contains "x" "1920*1080, 1280" = false /\
  _parse_res_list "1920*1080, 1280" = [].
Proof.
  split; [reflexivity|].
  exact (parse_res_list_without_x "1920*1080, 1280" eq_refl).
Defined.

(** *** The table and the info text *)

(** X17. Every item of the table literal, the items of the keys written
    twice included, is well formed: its text is exactly the printed form of
    the pairs [_parse_res_list] reads from it, so no resolution of the table
    is skipped, and every suggested pair is positive and no larger than the
    key on either axis. *)
Theorem table_texts_well_formed (key : Z * Z) (text : string) :
  In (key, text) _get_common_resolution_table ->
  String.concat ", " (map resolution_text (_parse_res_list text)) = text /\
  forallb (fun p => (0 <? fst p) && (fst p <=? fst key)
                    && (0 <? snd p) && (snd p <=? snd key))%bool
          (_parse_res_list text) = true.
Proof.
  intros Hin. unfold _get_common_resolution_table in Hin. cbn [In] in Hin.
  repeat (destruct Hin as [Hin|Hin];
          [injection Hin as <- <-; vm_compute; split; reflexivity|]).
  contradiction.
Qed.

Lemma table_texts_well_formed_witness :
  In ((1280, 720), "1152x648, 1024x576, 960x540") _get_common_resolution_table /\
  _parse_res_list "1152x648, 1024x576, 960x540" = [(1152, 648); (1024, 576); (960, 540)] /\
  String.concat ", " (map resolution_text [(1152, 648); (1024, 576); (960, 540)])
  = "1152x648, 1024x576, 960x540".
Proof.
  assert (Hin : In ((1280, 720), "1152x648, 1024x576, 960x540")
                   _get_common_resolution_table)
    by (do 25 right; left; reflexivity).
  assert (Ep : _parse_res_list "1152x648, 1024x576, 960x540"
               = [(1152, 648); (1024, 576); (960, 540)]) by (vm_compute; reflexivity).
  split; [exact Hin|]. split; [exact Ep|].
  rewrite <- Ep. exact (proj1 (table_texts_well_formed _ _ Hin)).
Defined.

(** X18. The lower resolution that [_static_resolution_suggestions] offers
    at the end of its text is the size the suggestion 4 returns for the same
    input; the text before it is the table text of the key, or the notice
    that the input size has no static entries. *)
Theorem static_suggestions_offer_rank4 (w h m : Z) (info : string) :
  _static_resolution_suggestions w h m = Return info ->
  exists new_w new_h raw_w raw_h,
    _get_suggestion_target w h m "Resolution suggestion 4 (very low VRAM)"
    = Return (new_w, new_h, raw_w, raw_h) /\
    info
    = (match PyDict.get _get_common_resolution_table (w, h) with
       | Some text => "suggested/common resolutions: " ++ text
       | None => "suggested/common resolutions: (no static entries for this input size)"
       end)
      ++ " | less common lower resolution (same aspect ratio): "
      ++ resolution_text (new_w, new_h).
Proof.
  intros H. unfold _static_resolution_suggestions in H.
  inv_bind H. destruct a as [[[low_w low_h] raw_w] raw_h]. injection H as <-.
  exists low_w, low_h, raw_w, raw_h. split.
  - rewrite suggestion_target_rank4 by reflexivity. exact E.
  - reflexivity.
Qed.

Lemma static_suggestions_offer_rank4_witness :
  _static_resolution_suggestions 1234 987 8
  = Return "suggested/common resolutions: (no static entries for this input size) | less common lower resolution (same aspect ratio): 616x488" /\
  _get_suggestion_target 1234 987 8 "Resolution suggestion 4 (very low VRAM)"
  = Return (616, 488, 617, 494).
Proof.
  assert (E : _static_resolution_suggestions 1234 987 8
              = Return "suggested/common resolutions: (no static entries for this input size) | less common lower resolution (same aspect ratio): 616x488")
    by (vm_compute; reflexivity).
  split; [exact E|].
  destruct (static_suggestions_offer_rank4 1234 987 8 _ E)
    as (nw & nh & rw & rh & Et & _).
  rewrite Et. f_equal. vm_compute in Et. injection Et as <- <- <- <-. reflexivity.
Defined.
